(** * Forecast aggregation and log-return inversion (src/experiment/utils.py)

    A shallow embedding of [get_predictions], [all_model_predictions] and
    [log_returns_to_price].  The forecast store is a finite map from paths
    to CSV artifacts, Python exceptions are an error type, and the effects
    of the code (console lines, directory creation, price loading, file
    writes) are recorded in a trace. *)

From Stdlib Require Import ZArith List Bool Ascii Lia Reals DecimalString DecimalNat Sorted.
From stdpp Require Import gmap strings list fin_maps.

Import ListNotations.
Local Open Scope string_scope.
Local Open Scope list_scope.
Local Open Scope Z_scope.

(** ** Python values and exceptions *)

Inductive exn : Type :=
| TypeError
| AttributeError
| UnboundLocalError
| FileNotFoundError
| KeyError
| ValueError
| IndexError.

Inductive result (A : Type) : Type :=
| Ok (a : A)
| Raise (e : exn).
Arguments Ok {A} a.
Arguments Raise {A} e.

(** Timestamps are integers: positions on the calendar grid of the
    resolution, so that a regular frequency is a constant difference. *)
Definition time := Z.

(** A CSV artifact, and a time-indexed pandas frame: the name of the time
    column (the index name), the name of the single value column, and the
    rows in file order. *)
Record table (V : Type) : Type := Table {
  time_col : string;
  value_col : string;
  rows : list (time * V)
}.
Arguments Table {V} _ _ _.
Arguments time_col {V} _.
Arguments value_col {V} _.
Arguments rows {V} _.

(** A darts [TimeSeries] with one component. *)
Definition TimeSeries (V : Type) : Type := list (time * V).

(** What [get_predictions] binds to [preds] and [tests]: a list of
    per-fold series or a single series. *)
Inductive shaped (V : Type) : Type :=
| PerFold (folds : list (TimeSeries V))
| Series (ts : TimeSeries V).
Arguments PerFold {V} folds.
Arguments Series {V} ts.

(** ** The world: forecast store and trace of effects *)

Inductive event : Type :=
| EPrint (line : string)
| EReadPrices (coin time_frame : string)
| EMakedirs (path : string)
| EToCsv (path : string).

Record world (V : Type) : Type := World {
  files : gmap string (table V);
  trace : list event
}.
Arguments World {V} _ _.
Arguments files {V} _.
Arguments trace {V} _.

(** ** State and exception monad *)

Definition M (V A : Type) : Type := world V -> result A * world V.

Definition ret {V A} (a : A) : M V A := fun w => (Ok a, w).
Definition raise {V A} (e : exn) : M V A := fun w => (Raise e, w).
Definition bind {V A B} (m : M V A) (k : A -> M V B) : M V B :=
  fun w => match m w with
           | (Ok a, w') => k a w'
           | (Raise e, w') => (Raise e, w')
           end.
Definition lift {V A} (r : result A) : M V A := fun w => (r, w).

Definition rbind {A B} (r : result A) (k : A -> result B) : result B :=
  match r with
  | Ok a => k a
  | Raise e => Raise e
  end.

#[global] Instance result_mret : MRet result := fun A a => Ok a.
#[global] Instance result_mbind : MBind result := fun A B k r => rbind r k.
#[global] Instance M_mret {V} : MRet (M V) := fun A a => ret a.
#[global] Instance M_mbind {V} : MBind (M V) := fun A B k m => bind m k.

Definition emit {V} (e : event) : M V unit :=
  fun w => (Ok tt, World (files w) (trace w ++ [e])).

(** [print(...)] *)
Definition print {V} (line : string) : M V unit := emit (EPrint line).

(** [os.path.exists(path)] *)
Definition path_exists {V} (path : string) : M V bool :=
  fun w => (Ok (if files w !! path is Some _ then true else false), w).

(** [pd.read_csv(path)] *)
Definition pd_read_csv {V} (path : string) : M V (table V) :=
  fun w => match files w !! path with
           | Some t => (Ok t, w)
           | None => (Raise FileNotFoundError, w)
           end.

(** [frame.to_csv(path)] *)
Definition to_csv {V} (t : table V) (path : string) : M V unit :=
  fun w => (Ok tt, World (<[path := t]> (files w)) (trace w ++ [EToCsv path])).

(** [os.makedirs(path, exist_ok=True)] *)
Definition makedirs {V} (path : string) : M V unit := emit (EMakedirs path).

(** ** Configuration (config.py) *)

Record config : Type := Config {
  all_coins : list string;
  timeframes : list string;
  all_models : list string;
  ml_models : list string;
  model_output_dir : string;
  log_returns_model : string;
  raw_model : string;
  extended_model : string;
  scaled_model : string;
  log_to_raw_model : string;
  scaled_to_raw_model : string;
  extended_to_raw_model : string;
  scaled_to_log_model : string;
  raw_to_log_model : string
}.

(** ** Python built-ins *)

(** [x in xs] on strings *)
Definition str_in (x : string) (xs : list string) : bool :=
  existsb (String.eqb x) xs.

(** [str(n)] for a non-negative integer, as an f-string renders it *)
Definition str_of_nat (n : nat) : string :=
  NilEmpty.string_of_uint (Nat.to_uint n).

(** [xs[0]] *)
Definition py_first {A} (xs : list A) : result A :=
  match xs with
  | [] => Raise IndexError
  | x :: _ => Ok x
  end.

(** [xs[-1]] *)
Fixpoint py_last {A} (xs : list A) : result A :=
  match xs with
  | [] => Raise IndexError
  | [x] => Ok x
  | _ :: rest => py_last rest
  end.

(** [xs[a:b]]: negative bounds count from the end, bounds are clamped to
    the length, the upper bound is exclusive. *)
Definition clamp_index (n i : Z) : Z :=
  if i <? 0 then Z.max (i + n) 0 else Z.min i n.

Definition py_slice {A} (xs : list A) (a b : Z) : list A :=
  let n := Z.of_nat (length xs) in
  let lo := clamp_index n a in
  let hi := clamp_index n b in
  firstn (Z.to_nat (hi - lo)) (skipn (Z.to_nat lo) xs).

(** Keyword arguments of a call. *)
Inductive pyarg : Type :=
| AStr (s : string)
| ABool (b : bool).

Definition as_str (a : pyarg) : string :=
  match a with
  | AStr s => s
  | ABool true => "True"
  | ABool false => "False"
  end.

Definition truthy (a : pyarg) : bool :=
  match a with
  | AStr s => negb (String.eqb s "")
  | ABool b => b
  end.

Fixpoint kw_lookup (name : string) (kwargs : list (string * pyarg)) : option pyarg :=
  match kwargs with
  | [] => None
  | (k, v) :: rest => if String.eqb k name then Some v else kw_lookup name rest
  end.

(** Binding of a keyword-only call against a signature (parameter names
    with optional defaults): a keyword that names no parameter, or a
    parameter left without a value, is a [TypeError]. *)
Fixpoint bind_params (params : list (string * option pyarg))
    (kwargs : list (string * pyarg)) : result (list pyarg) :=
  match params with
  | [] => Ok []
  | (name, default) :: rest =>
      v ← match kw_lookup name kwargs, default with
          | Some v, _ => Ok v
          | None, Some d => Ok d
          | None, None => Raise TypeError
          end;
      vs ← bind_params rest kwargs;
      Ok (v :: vs)
  end.

Definition bind_keywords (params : list (string * option pyarg))
    (kwargs : list (string * pyarg)) : result (list pyarg) :=
  if forallb (fun kw => str_in (fst kw) (map fst params)) kwargs
  then bind_params params kwargs
  else Raise TypeError.

(** ** darts: the parts of [TimeSeries] the code calls *)

Section Darts.
Context {V : Type}.

  (** Rows in time order (insertion sort on the timestamp). *)
Fixpoint insert_row (r : time * V) (sorted : list (time * V)) : list (time * V) :=
    match sorted with
    | [] => [r]
    | r' :: rest => if fst r <=? fst r' then r :: sorted else r' :: insert_row r rest
    end.

Definition sort_rows (rs : list (time * V)) : list (time * V) :=
    fold_right insert_row [] rs.

  (** A time axis darts can infer a step for: at least three timestamps,
      each one positive step after the one before. *)
Fixpoint constant_step (step : Z) (times : list time) : bool :=
    match times with
    | t1 :: ((t2 :: _) as rest) => (t2 - t1 =? step) && constant_step step rest
    | _ => true
    end.

Definition regular (times : list time) : bool :=
    match times with
    | t0 :: t1 :: _ :: _ => (0 <? t1 - t0) && constant_step (t1 - t0) times
    | _ => false
    end.

  (** [TimeSeries.from_dataframe(df, time_col=tc, value_cols=[vc])]: the
      value column is selected first ([KeyError] when it is not in the
      frame), then the time column ([AttributeError] when it is not); the
      rows are sorted by time, and a time axis without a regular step is a
      [ValueError].  [value_cols] is a one-element list on both branches
      of the caller and is modelled by its element. *)
Definition from_dataframe (df : table V) (tc vc : string) : result (TimeSeries V) :=
    if negb (String.eqb (value_col df) vc) then Raise KeyError
    else if negb (String.eqb (time_col df) tc) then Raise AttributeError
    else
      let sorted := sort_rows (rows df) in
      if regular (map fst sorted) then Ok sorted else Raise ValueError.

  (** [series.start_time()], [series.end_time()], [series.values()] *)
Definition start_time (s : TimeSeries V) : result time := py_first (map fst s).
Definition end_time (s : TimeSeries V) : result time := py_last (map fst s).
Definition values (s : TimeSeries V) : list V := map snd s.

  (** The time step darts infers for a series. *)
Variable freq : TimeSeries V -> Z.

  (** A time axis made anew: [start], [start + step], ... under the
      values. *)
Definition restamp (start step : Z) (vals : list V) : TimeSeries V :=
    combine (map (fun i => start + Z.of_nat i * step) (seq 0 (length vals))) vals.

  (** [concatenate(series, axis=0)]: every series must start one step (of
      the first series) after the previous one ends (a [ValueError]
      otherwise); the result holds the values of the series end to end on
      a time axis generated from the start and the step of the first
      series. *)
Fixpoint consecutive (step : Z) (series : list (TimeSeries V)) : result bool :=
    match series with
    | prev :: ((next :: _) as rest) =>
        e ← end_time prev;
        s ← start_time next;
        if e + step =? s then consecutive step rest else Ok false
    | _ => Ok true
    end.

Definition concatenate (series : list (TimeSeries V)) : result (TimeSeries V) :=
    first ← py_first series;
    ok ← consecutive (freq first) series;
    if ok : bool then
      start ← start_time first;
      Ok (restamp start (freq first) (List.concat (map values series)))
    else Raise ValueError.
End Darts.

(** ** get_predictions *)

Section Loader.
Context {V : Type}.
Variable cfg : config.
  (** [darts.metrics.rmse] *)
Variable rmse : TimeSeries V -> TimeSeries V -> result V.
Variable freq : TimeSeries V -> Z.

  (** The [if]/[elif] that binds [value_cols]; [None] when neither branch
      runs and the name stays unbound. *)
Definition value_cols_of (model : string) : option string :=
    if str_in model [log_returns_model cfg; extended_model cfg; scaled_model cfg;
                     scaled_to_log_model cfg; raw_to_log_model cfg]
    then Some "log returns"
    else if str_in model [raw_model cfg; extended_to_raw_model cfg; scaled_to_raw_model cfg]
    then Some "close"
    else None.

Definition file_loc (root model model_name coin time_frame : string) : string :=
    root +:+ "/" +:+ model +:+ "/" +:+ model_name +:+ "/" +:+ coin +:+ "/" +:+ time_frame.

Definition pred_file (loc : string) (period : nat) : string :=
    loc +:+ "/pred_" +:+ str_of_nat period +:+ ".csv".

Definition test_file (loc : string) (period : nat) : string :=
    loc +:+ "/test_" +:+ str_of_nat period +:+ ".csv".

  (** One iteration of [for period in range(5)].  [None] is the early
      [return None, None, None]. *)
Definition load_period (model model_name coin time_frame : string)
      (value_cols : option string) (period : nat)
      : M V (option (TimeSeries V * TimeSeries V * V)) :=
    let loc := file_loc (model_output_dir cfg) model model_name coin time_frame in
    let pred_path := pred_file loc period in
    let test_path := test_file loc period in
    present ← path_exists pred_path;
    if negb present then
      print ("Warning the following file does not exist: " +:+ pred_path);;
      mret None
    else
      pred ← pd_read_csv pred_path;
      vc ← match value_cols with
           | Some c => mret c
           | None => raise UnboundLocalError
           end;
      pred ← lift (from_dataframe pred "time" vc);
      test ← pd_read_csv test_path;
      test ← lift (from_dataframe test "date" vc);
      e ← lift (rmse test pred);
      mret (Some (pred, test, e)).

Fixpoint load_periods (model model_name coin time_frame : string)
      (value_cols : option string) (periods : list nat)
      (preds tests : list (TimeSeries V)) (rmses : list V)
      : M V (option (list (TimeSeries V) * list (TimeSeries V) * list V)) :=
    match periods with
    | [] => mret (Some (preds, tests, rmses))
    | period :: rest =>
        r ← load_period model model_name coin time_frame value_cols period;
        match r with
        | None => mret None
        | Some (pred, test, e) =>
            load_periods model model_name coin time_frame value_cols rest
              (preds ++ [pred]) (tests ++ [test]) (rmses ++ [e])
        end
    end.

Definition loaded : Type :=
    (option (shaped V) * option (shaped V) * option (list V))%type.

Definition get_predictions (model model_name coin time_frame : string)
      (concatenated : bool) : M V loaded :=
    let value_cols := value_cols_of model in
    r ← load_periods model model_name coin time_frame value_cols (seq 0 5) [] [] [];
    match r with
    | None => mret (None, None, None)
    | Some (preds, tests, rmses) =>
        if negb (String.eqb model (extended_model cfg)) && concatenated then
          preds ← lift (concatenate freq preds);
          tests ← lift (concatenate freq tests);
          mret (Some (Series preds), Some (Series tests), Some rmses)
        else
          test ← lift (py_first tests);
          mret (Some (PerFold preds), Some (Series test), Some rmses)
    end.

  (** The signature of [get_predictions]; a call by keywords goes through
      [bind_keywords]. *)
Definition get_predictions_params : list (string * option pyarg) :=
    [("model", None); ("model_name", None); ("coin", None);
     ("time_frame", None); ("concatenated", Some (ABool true))].

Definition call_get_predictions (kwargs : list (string * pyarg)) : M V loaded :=
    args ← lift (bind_keywords get_predictions_params kwargs);
    match args with
    | [model; model_name; coin; time_frame; concatenated] =>
        get_predictions (as_str model) (as_str model_name) (as_str coin)
          (as_str time_frame) (truthy concatenated)
    | _ => raise TypeError
    end.
End Loader.

(** ** pandas: dictionaries and frames the code builds *)

Section Pandas.
Context {A V : Type}.

  (** [d[k] = v] on an insertion-ordered dict. *)
Fixpoint dict_set (k : string) (v : A) (d : list (string * A)) : list (string * A) :=
    match d with
    | [] => [(k, v)]
    | (k', v') :: rest =>
        if String.eqb k' k then (k, v) :: rest else (k', v') :: dict_set k v rest
    end.

  (** [pd.DataFrame(d)] for a dict whose values are lists or [None]: the
      lists must have one common length, a [None] is repeated to that
      length, and a non-empty dict without any list is rejected. *)
Definition column_lengths (d : list (string * option (list V))) : list nat :=
    omap (fun kv => length <$> snd kv) d.

Definition DataFrame (d : list (string * option (list V)))
      : result (list (string * list (option V))) :=
    match d, column_lengths d with
    | [], _ => Ok []
    | _ :: _, [] => Raise ValueError
    | _ :: _, n :: ns =>
        if forallb (Nat.eqb n) ns
        then Ok (map (fun kv => (fst kv,
                                 match snd kv with
                                 | Some l => map Some l
                                 | None => repeat None n
                                 end)) d)
        else Raise ValueError
    end.

  (** [pd.DataFrame({"close": vals}, index=[idx])]: one row per index
      entry, and the value list must be as long as the index. *)
Definition indexed_frame (idx : list time) (vals : list V) : result (list (time * V)) :=
    if Nat.eqb (length idx) (length vals)
    then Ok (combine idx vals)
    else Raise ValueError.

  (** [index.get_loc(t)]: the row position of a label.  An absent label
      is a [KeyError]; a label that occurs more than once is located by a
      slice or a mask, on which the caller's [- 1] and [+ 1] are a
      [TypeError]. *)
Fixpoint positions (t : time) (idx : list time) (i : Z) : list Z :=
    match idx with
    | [] => []
    | t' :: rest =>
        if t' =? t then i :: positions t rest (i + 1) else positions t rest (i + 1)
    end.

Definition get_loc (idx : list time) (t : time) : result Z :=
    match positions t idx 0 with
    | [] => Raise KeyError
    | [i] => Ok i
    | _ => Raise TypeError
    end.

  (** [frame[name].to_list()] *)
Definition column (df : table V) (name : string) : result (list V) :=
    if String.eqb (value_col df) name then Ok (map snd (rows df)) else Raise KeyError.
End Pandas.

(** ** all_model_predictions *)

Section Aggregator.
Context {V : Type}.
Variable cfg : config.
Variable rmse : TimeSeries V -> TimeSeries V -> result V.
Variable freq : TimeSeries V -> Z.

  (** The body of [for model_name in models]. *)
Fixpoint collect_models (model coin time_frame : string) (models : list string)
      (model_predictions : list (string * loaded (V:=V)))
      : M V (list (string * loaded (V:=V))) :=
    match models with
    | [] => mret model_predictions
    | model_name :: rest =>
        r ← call_get_predictions cfg rmse freq
              [("model", AStr model); ("model_name", AStr model_name);
               ("coin", AStr coin); ("time_frame", AStr time_frame)];
        let '(preds, tests, rmses) := r in
        collect_models model coin time_frame rest
          (match preds with
           | Some _ => dict_set model_name (preds, tests, rmses) model_predictions
           | None => model_predictions
           end)
    end.

Definition all_model_predictions (model coin time_frame : string)
      : M V (list (string * loaded (V:=V)) * list (string * list (option V))) :=
    let models := if String.eqb model (extended_model cfg)
                  then ml_models cfg else all_models cfg in
    model_predictions ← collect_models model coin time_frame models [];
    let rmses := map (fun kv => (fst kv, snd (snd kv))) model_predictions in
    rmse_df ← lift (DataFrame rmses);
    mret (model_predictions, rmse_df).
End Aggregator.

(** ** log_returns_to_price *)

Section Inverter.
Context {V : Type}.
Variable cfg : config.
Variable rmse : TimeSeries V -> TimeSeries V -> result V.
Variable freq : TimeSeries V -> Z.
  (** numpy: float multiplication and [np.exp] *)
Variable fmul : V -> V -> V.
Variable fexp : V -> V.
  (** [data.csv_data.read_csv(coin, timeframe, col_names=["close"])] *)
Variable read_csv : string -> string -> result (table V).

  (** The [if]/[elif]/[else] that binds [transformed_model]; [None] is
      the [else] branch. *)
Definition transformed_model_of (model : string) : option string :=
    if String.eqb model (log_returns_model cfg) then Some (log_to_raw_model cfg)
    else if String.eqb model (extended_model cfg) then Some (extended_to_raw_model cfg)
    else if String.eqb model (scaled_to_log_model cfg) then Some (scaled_to_raw_model cfg)
    else None.

  (** [price_df.iloc[start_pos:end_pos]] around one prediction. *)
Definition slice_window (price_df : table V) (prediction : TimeSeries V)
      : result (list (time * V)) :=
    let index := map fst (rows price_df) in
    st ← start_time prediction;
    start_loc ← get_loc index st;
    let start_pos := start_loc - 1 in
    et ← end_time prediction;
    end_loc ← get_loc index et;
    let end_pos := end_loc + 1 in
    Ok (py_slice (rows price_df) start_pos end_pos).

  (** [for value in prediction.values(): close.append(close[-1] * np.exp(value[0]))] *)
Fixpoint compound (close : list V) (vals : list V) : result (list V) :=
    match vals with
    | [] => Ok close
    | value :: rest =>
        prev ← py_last close;
        compound (close ++ [fmul prev (fexp value)]) rest
    end.

  (** The body of [for i, prediction in enumerate(preds)] up to the two
      frames that are saved. *)
Definition convert_fold (price_df : table V) (prediction : TimeSeries V)
      : result (table V * table V) :=
    sliced ← slice_window price_df prediction;
    let sliced_price_df := Table (time_col price_df) (value_col price_df) sliced in
    closes ← column sliced_price_df "close";
    anchor ← py_first closes;
    close ← compound [anchor] (values prediction);
    close ← indexed_frame (map fst sliced) close;
    closes ← column sliced_price_df "close";
    test ← indexed_frame (map fst sliced) closes;
    Ok (Table "time" "close" (skipn 1 close),
        Table (time_col price_df) "close" (skipn 1 test)).

Fixpoint save_folds (save_loc : string) (price_df : table V) (i : nat)
      (preds : list (TimeSeries V)) : M V unit :=
    match preds with
    | [] => mret tt
    | prediction :: rest =>
        r ← lift (convert_fold price_df prediction);
        let '(close, test) := r in
        to_csv close (pred_file save_loc i);;
        to_csv test (test_file save_loc i);;
        save_folds save_loc price_df (S i) rest
    end.

  (** What iterating over [preds] yields: [None] is not iterable, a list
      yields its folds, a series yields its one-step series. *)
Definition iterate (preds : option (shaped V)) : result (list (TimeSeries V)) :=
    match preds with
    | None => Raise TypeError
    | Some (PerFold folds) => Ok folds
    | Some (Series ts) => Ok (map (fun row => [row]) ts)
    end.

Definition read_prices (coin time_frame : string) : M V (table V) :=
    emit (EReadPrices coin time_frame);; lift (read_csv coin time_frame).

  (** The function after its first statement, given what [preds] holds. *)
Definition convert_predictions (preds : option (shaped V))
      (model forecasting_model coin time_frame : string) : M V unit :=
    match transformed_model_of model with
    | None => print "This model cannot be converted to price."
    | Some transformed_model =>
        price_df ← read_prices coin time_frame;
        let save_loc := file_loc (model_output_dir cfg) transformed_model
                          forecasting_model coin time_frame in
        makedirs save_loc;;
        folds ← lift (iterate preds);
        save_folds save_loc price_df 0 folds
    end.

Definition log_returns_to_price (model forecasting_model coin time_frame : string)
      : M V unit :=
    r ← call_get_predictions cfg rmse freq
          [("model", AStr model); ("forecasting_model", AStr forecasting_model);
           ("coin", AStr coin); ("time_frame", AStr time_frame);
           ("concatenated", ABool false)];
    let '(preds, _, _) := r in
    convert_predictions preds model forecasting_model coin time_frame.

  (** [for x in xs: body(x)] *)
Fixpoint for_each {A} (xs : list A) (body : A -> M V unit) : M V unit :=
    match xs with
    | [] => mret tt
    | x :: rest => body x;; for_each rest body
    end.

  (** The two [if]s that bind [models] in [all_log_returns_to_price];
      [None] when neither runs and the name stays unbound. *)
Definition driver_models (model : string) : option (list string) :=
    let models := if String.eqb model (extended_model cfg)
                  then Some (ml_models cfg) else None in
    if str_in model [log_returns_model cfg; scaled_to_log_model cfg]
    then Some (all_models cfg)
    else models.

  (** [print("Converting log returns to price for", forecasting_model, coin)]:
      the arguments separated by single spaces. *)
Definition converting_line (forecasting_model coin : string) : string :=
    "Converting log returns to price for" +:+ " " +:+ forecasting_model
      +:+ " " +:+ coin.

Definition all_log_returns_to_price (model : string) : M V unit :=
    models ← match driver_models model with
             | Some models => mret models
             | None => raise UnboundLocalError
             end;
    for_each models (fun forecasting_model =>
      for_each (all_coins cfg) (fun coin =>
        print (converting_line forecasting_model coin);;
        for_each (timeframes cfg) (fun time_frame =>
          log_returns_to_price model forecasting_model coin time_frame))).
End Inverter.

(** ** Vocabulary of the statements *)

Section Shapes.
Context {V : Type}.

Definition fold_pred (f : TimeSeries V * TimeSeries V * V) : TimeSeries V := fst (fst f).
Definition fold_test (f : TimeSeries V * TimeSeries V * V) : TimeSeries V := snd (fst f).
Definition fold_rmse (f : TimeSeries V * TimeSeries V * V) : V := snd f.

  (** darts accepts the series as contiguous in time. *)
Definition contiguous (freq : TimeSeries V -> Z) (series : list (TimeSeries V)) : Prop :=
    exists first start,
      py_first series = Ok first /\ start_time first = Ok start /\
      consecutive (freq first) series = Ok true.
End Shapes.

Section Vocabulary.
Context {V : Type}.
Variable cfg : config.
Variable rmse : TimeSeries V -> TimeSeries V -> result V.

  (** Fold [period] of a tuple loads from the store [w]: both artifacts
      are present, carry the expected column names, and the metric is
      defined on the pair. *)
Definition fold_loads (model model_name coin time_frame : string)
      (w : world V) (period : nat) (fold : TimeSeries V * TimeSeries V * V) : Prop :=
    let loc := file_loc (model_output_dir cfg) model model_name coin time_frame in
    exists (pdf tdf : table V) (vc : string),
      files w !! pred_file loc period = Some pdf /\
      value_cols_of cfg model = Some vc /\
      from_dataframe pdf "time" vc = Ok (fst (fst fold)) /\
      files w !! test_file loc period = Some tdf /\
      from_dataframe tdf "date" vc = Ok (snd (fst fold)) /\
      rmse (snd (fst fold)) (fst (fst fold)) = Ok (snd fold).

  (** Fold [period] under [loc] parses with the value column [vc]: both
      artifacts are present, darts builds the two series from the columns
      ("time", [vc]) and ("date", [vc]), and the metric is defined. *)
Definition fold_parses (loc vc : string) (w : world V) (period : nat)
      (fold : TimeSeries V * TimeSeries V * V) : Prop :=
    exists (pdf tdf : table V),
      files w !! pred_file loc period = Some pdf /\
      from_dataframe pdf "time" vc = Ok (fst (fst fold)) /\
      files w !! test_file loc period = Some tdf /\
      from_dataframe tdf "date" vc = Ok (snd (fst fold)) /\
      rmse (snd (fst fold)) (fst (fst fold)) = Ok (snd fold).

  (** [get_predictions] loads a tuple through the value column [vc]: five
      folds that parse with [vc] are returned by a non-concatenated call,
      and whatever a call returns other than the sentinel is built from
      five folds that parse with [vc]. *)
Definition loads_with_column (freq : TimeSeries V -> Z)
      (model model_name coin time_frame : string) (w : world V) (vc : string) : Prop :=
    let loc := file_loc (model_output_dir cfg) model model_name coin time_frame in
    (forall folds,
        Forall2 (fold_parses loc vc w) (seq 0 5) folds ->
        exists first rest,
          folds = first :: rest /\
          get_predictions cfg rmse freq model model_name coin time_frame false w
          = (Ok (Some (PerFold (map fold_pred folds)), Some (Series (fold_test first)),
                 Some (map fold_rmse folds)), w))
    /\
    (forall concatenated preds tests rmses w',
        get_predictions cfg rmse freq model model_name coin time_frame concatenated w
        = (Ok (Some preds, tests, rmses), w') ->
        exists folds,
          Forall2 (fold_parses loc vc w) (seq 0 5) folds /\
          rmses = Some (map fold_rmse folds) /\
          (preds = PerFold (map fold_pred folds)
           \/ exists s, concatenate freq (map fold_pred folds) = Ok s
                        /\ preds = Series s)).

  (** All five folds of a tuple load. *)
Definition folds_load (model model_name coin time_frame : string)
      (w : world V) (folds : list (TimeSeries V * TimeSeries V * V)) : Prop :=
    Forall2 (fold_loads model model_name coin time_frame w) (seq 0 5) folds.

  (** The world after the warning about a missing prediction artifact. *)
Definition warned (model model_name coin time_frame : string)
      (w : world V) (period : nat) : world V :=
    let loc := file_loc (model_output_dir cfg) model model_name coin time_frame in
    World (files w)
      (trace w ++ [EPrint ("Warning the following file does not exist: "
                           +:+ pred_file loc period)]).
  (** The lists the loop has built once the folds [folds] are appended. *)
Definition extend (acc : list (TimeSeries V) * list (TimeSeries V) * list V)
      (folds : list (TimeSeries V * TimeSeries V * V)) :=
    ((fst (fst acc) ++ map fold_pred folds)%list,
     (snd (fst acc) ++ map fold_test folds)%list,
     (snd acc ++ map fold_rmse folds)%list).
End Vocabulary.

Section Catalog.
Context {V : Type}.
Variable cfg : config.
Variable rmse : TimeSeries V -> TimeSeries V -> result V.
Variable freq : TimeSeries V -> Z.

  (** The catalog [all_model_predictions] iterates over. *)
Definition applicable_catalog (model : string) : list string :=
    if String.eqb model (extended_model cfg) then ml_models cfg else all_models cfg.

  (** What loading one model of the catalog from the store [w] gives. *)
Definition outcome (model coin time_frame : string) (w : world V)
      (model_name : string) : result (loaded (V:=V)) :=
    fst (get_predictions cfg rmse freq model model_name coin time_frame true w).

  (** The load succeeded: it returned, and not the sentinel. *)
Definition available (model coin time_frame : string) (w : world V)
      (model_name : string) : bool :=
    match outcome model coin time_frame w model_name with
    | Ok (Some _, _, _) => true
    | _ => false
    end.

  (** The dictionary the loop builds from the outcomes. *)
Definition collect (model coin time_frame : string) (w : world V)
      (models : list string) (d : list (string * loaded (V:=V)))
      : list (string * loaded (V:=V)) :=
    fold_left (fun d model_name =>
                 match outcome model coin time_frame w model_name with
                 | Ok (Some preds, tests, rmses) =>
                     dict_set model_name (Some preds, tests, rmses) d
                 | _ => d
                 end) models d.
End Catalog.

(** The rows at positions [i .. j], both included. *)
Definition rows_between {A} (xs : list A) (i j : Z) : list A :=
  firstn (Z.to_nat (j - i + 1)) (skipn (Z.to_nat i) xs).

(** Timestamps strictly increase along a series. *)
Definition increasing {V} (s : TimeSeries V) : Prop :=
  StronglySorted Z.lt (map fst s).

(** Fold after fold in time: every timestamp of a fold is before every
    timestamp of each later fold. *)
Fixpoint chronological {V} (series : list (TimeSeries V)) : Prop :=
  match series with
  | [] => True
  | prev :: rest =>
      Forall (fun next => forall a b, In a (map fst prev) -> In b (map fst next) -> a < b) rest
      /\ chronological rest
  end.

(** The [to_csv] events of the folds [i], [i + 1], ... of a saving loop. *)
Fixpoint writes_from (save_loc : string) (i n : nat) : list event :=
  match n with
  | O => []
  | S n' => EToCsv (pred_file save_loc i) :: EToCsv (test_file save_loc i)
            :: writes_from save_loc (S i) n'
  end.

(** ** A sample configuration and store over the reals *)

Module Sample.
Local Open Scope R_scope.

Definition cfg : config := {|
    all_coins := ["BTC"; "ETH"];
    timeframes := ["1d"];
    all_models := ["ARIMA"; "TBATS"; "RNN"; "LSTM"; "GRU"; "TCN";
                   "NBEATS"; "TFT"; "XGB"; "LightGBM"];
    ml_models := ["XGB"; "LightGBM"];
    model_output_dir := "output/model_output";
    log_returns_model := "log_returns";
    raw_model := "raw";
    extended_model := "extended";
    scaled_model := "scaled";
    log_to_raw_model := "log_to_raw";
    scaled_to_raw_model := "scaled_to_raw";
    extended_to_raw_model := "extended_to_raw";
    scaled_to_log_model := "scaled_to_log";
    raw_to_log_model := "raw_to_log"
  |}.

  (** The reference formula [sqrt(mean((pred - test)^2))] on two series
      with the same number of rows. *)
Definition root_mean_square (test pred : TimeSeries R) : R :=
    sqrt (fold_right Rplus 0
            (map (fun tp => (snd (snd tp) - snd (fst tp)) ^ 2) (combine test pred))
          / INR (length test)).

Definition rmse (test pred : TimeSeries R) : result R :=
    if Nat.eqb (length test) (length pred) && negb (Nat.eqb (length test) 0)
    then Ok (root_mean_square test pred)
    else Raise ValueError.

  (** The step between the first two rows (one for a shorter series). *)
Definition freq (s : TimeSeries R) : Z :=
    match s with
    | (t0, _) :: (t1, _) :: _ => (t1 - t0)%Z
    | _ => 1%Z
    end.

  (** Fold [i] covers the timestamps [3 i + 1], [3 i + 2] and [3 i + 3]. *)
Definition fold_rows (i : nat) : list (time * R) :=
    [((3 * Z.of_nat i + 1)%Z, 0); ((3 * Z.of_nat i + 2)%Z, 0);
     ((3 * Z.of_nat i + 3)%Z, 0)].

Definition loc (model model_name : string) : string :=
    file_loc (model_output_dir cfg) model model_name "BTC" "1d".

  (** The ten artifacts of one model, all with value column [vc]. *)
Definition put_fold (model model_name vc : string) (i : nat)
      (fs : gmap string (table R)) : gmap string (table R) :=
    <[test_file (loc model model_name) i := Table "date" vc (fold_rows i)]>
      (<[pred_file (loc model model_name) i := Table "time" vc (fold_rows i)]> fs).

Definition put_model (model vc model_name : string)
      (fs : gmap string (table R)) : gmap string (table R) :=
    fold_right (put_fold model model_name vc) fs (seq 0 5).

  (** What loading fold [i] of such a model gives. *)
Definition root_mean_square_of (i : nat) : R :=
    root_mean_square (fold_rows i) (fold_rows i).

Definition fold (i : nat) : TimeSeries R * TimeSeries R * R :=
    (fold_rows i, fold_rows i, root_mean_square_of i).

  (** ARIMA has all its log-return artifacts. *)
Definition full : world R :=
    World (put_model "log_returns" "log returns" "ARIMA" ∅) [].

  (** The same store without [test_0.csv]. *)
Definition no_test0 : world R :=
    World (delete (test_file (loc "log_returns" "ARIMA") 0) (files full)) [].

  (** The same store without [pred_3.csv]. *)
Definition no_pred3 : world R :=
    World (delete (pred_file (loc "log_returns" "ARIMA") 3) (files full)) [].

  (** Nothing stored at all. *)
Definition empty : world R := World ∅ [].

  (** Seven of the ten models of the catalog have artifacts. *)
Definition seven : world R :=
    World (fold_right (put_model "log_returns" "log returns") ∅
             ["ARIMA"; "TBATS"; "RNN"; "LSTM"; "GRU"; "TCN"; "NBEATS"]) [].

  (** Prices [100, 102, 101, 105] at times [0 .. 3], and a forecast for
      times [1] and [2] made of the true log returns. *)
Definition prices : table R :=
    Table "date" "close" [(0%Z, 100); (1%Z, 102); (2%Z, 101); (3%Z, 105)].

Definition forecast : TimeSeries R :=
    [(1%Z, ln (102 / 100)); (2%Z, ln (101 / 102))].

Definition read_csv (coin time_frame : string) : result (table R) := Ok prices.

  (** The two frames the conversion of [forecast] saves. *)
Definition reconstructed : table R :=
    Table "time" "close"
      [(1%Z, 100 * exp (ln (102 / 100)));
       (2%Z, 100 * exp (ln (102 / 100)) * exp (ln (101 / 102)))].

Definition ground_truth : table R :=
    Table "date" "close" [(1%Z, 102); (2%Z, 101)].
End Sample.

(** * Properties *)

Ltac unfold_monad :=
  unfold mbind, mret, M_mbind, M_mret, result_mbind, result_mret,
    bind, ret, rbind, lift, raise in *.

Ltac reduce := cbv beta iota delta [negb].

(** Fold [i] of a sample model loads, from its two artifacts. *)
Ltac sample_fold_loads i :=
  exists (Table "time" "log returns" (Sample.fold_rows i)),
         (Table "date" "log returns" (Sample.fold_rows i)),
         "log returns";
  repeat split; reflexivity.

(** Fold [i] of a sample model parses with "log returns". *)
Ltac sample_fold_parses i :=
  exists (Table "time" "log returns" (Sample.fold_rows i)),
         (Table "date" "log returns" (Sample.fold_rows i));
  repeat split; reflexivity.

(** ** Keyword binding *)

Section CallFacts.
Context {V : Type}.
Variable cfg : config.
Variable rmse : TimeSeries V -> TimeSeries V -> result V.
Variable freq : TimeSeries V -> Z.

  (** The call in [all_model_predictions] names four parameters of the
      signature and leaves [concatenated] to its default. *)
Lemma call_by_model_name (model model_name coin time_frame : string) :
    call_get_predictions cfg rmse freq
      [("model", AStr model); ("model_name", AStr model_name);
       ("coin", AStr coin); ("time_frame", AStr time_frame)]
    = get_predictions cfg rmse freq model model_name coin time_frame true.
  Proof. reflexivity. Qed.

  (** A call that passes [forecasting_model] binds nothing. *)
Lemma call_by_forecasting_model (model forecasting_model coin time_frame : string)
      (concatenated : bool) (w : world V) :
    call_get_predictions cfg rmse freq
      [("model", AStr model); ("forecasting_model", AStr forecasting_model);
       ("coin", AStr coin); ("time_frame", AStr time_frame);
       ("concatenated", ABool concatenated)] w
    = (Raise TypeError, w).
  Proof. reflexivity. Qed.
End CallFacts.

(** C1: the call from [log_returns_to_price] into [get_predictions] passes
    the keyword [forecasting_model], which is no parameter of
    [get_predictions] (its parameter is [model_name]); so every invocation
    raises a [TypeError] with the world untouched: no family mapping, no
    price loading, no directory and no file written. *)
Theorem log_returns_to_price_always_raises
    {V : Type} (cfg : config)
    (rmse : TimeSeries V -> TimeSeries V -> result V) (freq : TimeSeries V -> Z)
    (fmul : V -> V -> V) (fexp : V -> V)
    (read_csv : string -> string -> result (table V))
    (model forecasting_model coin time_frame : string) (w : world V) :
  log_returns_to_price cfg rmse freq fmul fexp read_csv
    model forecasting_model coin time_frame w
  = (Raise TypeError, w).
Proof.
  unfold log_returns_to_price. unfold_monad.
  change (call_get_predictions cfg rmse freq _ w) with
    (call_get_predictions cfg rmse freq
       [("model", AStr model); ("forecasting_model", AStr forecasting_model);
        ("coin", AStr coin); ("time_frame", AStr time_frame);
        ("concatenated", ABool false)] w).
  now rewrite call_by_forecasting_model.
Qed.

(** ** The fold loop of [get_predictions] *)

Section LoaderFacts.
Context {V : Type}.
Variable cfg : config.
Variable rmse : TimeSeries V -> TimeSeries V -> result V.
Variable freq : TimeSeries V -> Z.
Variables model model_name coin time_frame : string.

Local Abbreviation loc :=
    (file_loc (model_output_dir cfg) model model_name coin time_frame).
Local Abbreviation body :=
    (load_period cfg rmse model model_name coin time_frame (value_cols_of cfg model)).
Local Abbreviation loop :=
    (load_periods cfg rmse model model_name coin time_frame (value_cols_of cfg model)).
Local Abbreviation loads := (fold_loads cfg rmse model model_name coin time_frame).
Local Abbreviation warn := (warned (V:=V) cfg model model_name coin time_frame).

  (** One iteration, statement by statement. *)
Lemma load_period_eq (w : world V) (period : nat) :
    body period w =
    match files w !! pred_file loc period with
    | None => (Ok None, warn w period)
    | Some pdf =>
        match value_cols_of cfg model with
        | None => (Raise UnboundLocalError, w)
        | Some vc =>
            match from_dataframe pdf "time" vc with
            | Raise e => (Raise e, w)
            | Ok pred =>
                match files w !! test_file loc period with
                | None => (Raise FileNotFoundError, w)
                | Some tdf =>
                    match from_dataframe tdf "date" vc with
                    | Raise e => (Raise e, w)
                    | Ok test =>
                        match rmse test pred with
                        | Raise e => (Raise e, w)
                        | Ok e => (Ok (Some (pred, test, e)), w)
                        end
                    end
                end
            end
        end
    end.
  Proof.
    unfold load_period. unfold_monad. unfold path_exists, pd_read_csv. reduce.
    destruct (files w !! pred_file loc period) as [pdf|] eqn:Hp; [|reflexivity].
    reduce. rewrite Hp. reduce.
    destruct (value_cols_of cfg model) as [vc|]; [|reflexivity]. reduce.
    destruct (from_dataframe pdf "time" vc) as [pred|]; [|reflexivity]. reduce.
    destruct (files w !! test_file loc period) as [tdf|]; [|reflexivity]. reduce.
    destruct (from_dataframe tdf "date" vc) as [test|]; [|reflexivity].
    destruct (rmse test pred); reflexivity.
  Qed.

Lemma load_period_ok (w : world V) (period : nat) fold :
    loads w period fold -> body period w = (Ok (Some fold), w).
  Proof.
    destruct fold as [[pred test] e].
    intros (pdf & tdf & vc & Hp & Hvc & Hfp & Ht & Hft & He). simpl in *.
    now rewrite load_period_eq, Hp, Hvc, Hfp, Ht, Hft, He.
  Qed.

Lemma load_period_missing (w : world V) (period : nat) :
    files w !! pred_file loc period = None ->
    body period w = (Ok None, warn w period).
  Proof. intros Hp. now rewrite load_period_eq, Hp. Qed.

  (** Every way one iteration can end. *)
Lemma load_period_cases (w : world V) (period : nat) :
    (files w !! pred_file loc period = None /\ body period w = (Ok None, warn w period))
    \/ (exists fold, loads w period fold /\ body period w = (Ok (Some fold), w))
    \/ (is_Some (files w !! pred_file loc period) /\ exists e, body period w = (Raise e, w)).
  Proof.
    rewrite load_period_eq. unfold fold_loads.
    destruct (files w !! pred_file loc period) as [pdf|] eqn:Hp; [right|now left].
    destruct (value_cols_of cfg model) as [vc|] eqn:Hvc;
      [|right; split; eauto].
    destruct (from_dataframe pdf "time" vc) as [pred|] eqn:Hfp;
      [|right; split; eauto].
    destruct (files w !! test_file loc period) as [tdf|] eqn:Ht;
      [|right; split; eauto].
    destruct (from_dataframe tdf "date" vc) as [test|] eqn:Hft;
      [|right; split; eauto].
    destruct (rmse test pred) as [e|] eqn:He; [|right; split; eauto].
    left. exists (pred, test, e). split; [|reflexivity].
    exists pdf, tdf, vc. simpl. auto 10.
  Qed.

Lemma load_period_Some_inv (w w' : world V) (period : nat) fold :
    body period w = (Ok (Some fold), w') -> w' = w /\ loads w period fold.
  Proof.
    intros H.
    destruct (load_period_cases w period) as [[_ E]|[(f & Hf & E)|(_ & e & E)]];
      rewrite E in H; inversion H; subst; auto.
  Qed.

Lemma load_period_None_inv (w w' : world V) (period : nat) :
    body period w = (Ok None, w') ->
    files w !! pred_file loc period = None /\ w' = warn w period.
  Proof.
    intros H.
    destruct (load_period_cases w period) as [[Hp E]|[(f & Hf & E)|(_ & e & E)]];
      rewrite E in H; inversion H; subst; auto.
  Qed.

Lemma load_period_Raise_inv (w w' : world V) (period : nat) (e : exn) :
    body period w = (Raise e, w') ->
    is_Some (files w !! pred_file loc period) /\ w' = w.
  Proof.
    intros H.
    destruct (load_period_cases w period) as [[Hp E]|[(f & Hf & E)|(Hs & e' & E)]];
      rewrite E in H; inversion H; subst; auto.
  Qed.

Lemma load_periods_ok (w : world V) (periods : list nat) folds :
    Forall2 (loads w) periods folds ->
    forall preds tests rmses,
      loop periods preds tests rmses w
      = (Ok (Some (extend (preds, tests, rmses) folds)), w).
  Proof.
    induction 1 as [|period [[pred test] e] periods folds Hf _ IH]; intros preds tests rmses.
    - unfold extend. simpl. now rewrite !app_nil_r.
    - simpl. unfold_monad.
      pose proof (load_period_ok w period _ Hf) as E. rewrite E.
      rewrite IH. unfold extend. simpl.
      now rewrite <- !app_assoc.
  Qed.

Lemma load_periods_missing (w : world V) (done : list nat) (period : nat)
        (rest : list nat) folds :
    Forall2 (loads w) done folds ->
    files w !! pred_file loc period = None ->
    forall preds tests rmses,
      loop (done ++ period :: rest)%list preds tests rmses w = (Ok None, warn w period).
  Proof.
    induction 1 as [|p [[pred test] e] done folds Hf _ IH]; intros Hp preds tests rmses.
    - simpl. unfold_monad.
      pose proof (load_period_missing w period Hp) as E.
      now rewrite E.
    - simpl. unfold_monad.
      pose proof (load_period_ok w p _ Hf) as E. rewrite E.
      now apply IH.
  Qed.

Lemma load_periods_Some_inv (periods : list nat) :
    forall (w w' : world V) preds tests rmses acc',
      loop periods preds tests rmses w = (Ok (Some acc'), w') ->
      w' = w /\ exists folds,
        Forall2 (loads w) periods folds /\ acc' = extend (preds, tests, rmses) folds.
  Proof.
    induction periods as [|period periods IH]; intros w w' preds tests rmses acc' H.
    - simpl in H. inversion H; subst. split; [reflexivity|].
      exists []. split; [constructor|]. unfold extend. simpl. now rewrite !app_nil_r.
    - simpl in H. unfold_monad.
      destruct (load_period_cases w period) as [[_ E]|[(f & Hf & E)|(_ & e & E)]];
        rewrite E in H; try discriminate.
      destruct f as [[pred test] e].
      apply IH in H. destruct H as (-> & folds & HF & ->).
      split; [reflexivity|]. exists ((pred, test, e) :: folds).
      split; [now constructor|]. unfold extend. simpl. now rewrite <- !app_assoc.
  Qed.

Lemma load_periods_None_inv (periods : list nat) :
    forall (w w' : world V) preds tests rmses,
      loop periods preds tests rmses w = (Ok None, w') ->
      exists done period rest folds,
        periods = (done ++ period :: rest)%list /\
        Forall2 (loads w) done folds /\
        files w !! pred_file loc period = None /\
        w' = warn w period.
  Proof.
    induction periods as [|period periods IH]; intros w w' preds tests rmses H.
    - simpl in H. inversion H.
    - simpl in H. unfold_monad.
      destruct (load_period_cases w period) as [[Hp E]|[(f & Hf & E)|(_ & e & E)]];
        rewrite E in H; try discriminate.
      + inversion H; subst. exists [], period, periods, []. repeat split; auto.
      + destruct f as [[pred test] e].
        apply IH in H. destruct H as (done & k & rest & folds & -> & HF & Hk & ->).
        exists (period :: done), k, rest, ((pred, test, e) :: folds).
        repeat split; auto.
  Qed.
End LoaderFacts.

(** ** [get_predictions] as a whole *)

Section GetPredictionsFacts.
Context {V : Type}.
Variable cfg : config.
Variable rmse : TimeSeries V -> TimeSeries V -> result V.
Variable freq : TimeSeries V -> Z.
Variables model model_name coin time_frame : string.

Local Abbreviation loc :=
    (file_loc (model_output_dir cfg) model model_name coin time_frame).
Local Abbreviation loop :=
    (load_periods cfg rmse model model_name coin time_frame (value_cols_of cfg model)).
Local Abbreviation loads := (fold_loads cfg rmse model model_name coin time_frame).
Local Abbreviation warn := (warned (V:=V) cfg model model_name coin time_frame).
Local Abbreviation get := (get_predictions cfg rmse freq model model_name coin time_frame).

  (** The statements after the loop, on the lists the loop built. *)
Lemma get_predictions_eq (concatenated : bool) (w : world V) :
    get concatenated w =
    match loop (seq 0 5) [] [] [] w with
    | (Raise e, w') => (Raise e, w')
    | (Ok None, w') => (Ok (None, None, None), w')
    | (Ok (Some (preds, tests, rmses)), w') =>
        if negb (String.eqb model (extended_model cfg)) && concatenated then
          match concatenate freq preds with
          | Raise e => (Raise e, w')
          | Ok p =>
              match concatenate freq tests with
              | Raise e => (Raise e, w')
              | Ok t => (Ok (Some (Series p), Some (Series t), Some rmses), w')
              end
          end
        else
          match py_first tests with
          | Raise e => (Raise e, w')
          | Ok t => (Ok (Some (PerFold preds), Some (Series t), Some rmses), w')
          end
    end.
  Proof.
    unfold get_predictions. unfold_monad.
    destruct (loop (seq 0 5) [] [] [] w) as [[[[[preds tests] rmses]|]|e] w'];
      try reflexivity.
    destruct (negb (String.eqb model (extended_model cfg)) && concatenated).
    - destruct (concatenate freq preds); [|reflexivity].
      destruct (concatenate freq tests); reflexivity.
    - destruct (py_first tests); reflexivity.
  Qed.

Lemma seq_split (k : nat) :
    (k < 5)%nat -> seq 0 5 = (seq 0 k ++ k :: seq (S k) (4 - k))%list.
  Proof.
    intros Hk. replace 5%nat with (k + S (4 - k))%nat at 1 by lia.
    now rewrite seq_app.
  Qed.

Lemma Forall2_seq {B} (P : nat -> B -> Prop) (k : nat) :
    forall n, (forall j, (n <= j < n + k)%nat -> exists b, P j b) ->
    exists bs, Forall2 P (seq n k) bs.
  Proof.
    induction k as [|k IH]; intros n H.
    - exists []. constructor.
    - destruct (H n) as [b Hb]; [lia|].
      destruct (IH (S n)) as [bs Hbs]; [intros j Hj; apply H; lia|].
      exists (b :: bs). now constructor.
  Qed.

  (** A missing prediction artifact after folds that load gives the
      sentinel, with one warning printed. *)
Lemma get_predictions_missing (concatenated : bool) (w : world V) (k : nat) :
    (k < 5)%nat ->
    (forall j, (j < k)%nat -> exists fold, loads w j fold) ->
    files w !! pred_file loc k = None ->
    get concatenated w = (Ok (None, None, None), warn w k).
  Proof.
    intros Hk Hbefore Hmiss.
    destruct (Forall2_seq (loads w) k 0) as [folds Hfolds];
      [intros j Hj; apply Hbefore; lia|].
    rewrite get_predictions_eq, (seq_split k Hk).
    now rewrite (load_periods_missing cfg rmse model model_name coin time_frame
                   w (seq 0 k) k _ folds Hfolds Hmiss).
  Qed.

  (** Whatever is returned is the sentinel or is built from five folds. *)
Lemma get_predictions_inv (concatenated : bool) (w w' : world V) r :
    get concatenated w = (Ok r, w') ->
    (r = (None, None, None) /\
     exists k, (k < 5)%nat /\ files w !! pred_file loc k = None /\ w' = warn w k)
    \/ (w' = w /\ exists folds,
          folds_load cfg rmse model model_name coin time_frame w folds /\
          snd r = Some (map fold_rmse folds) /\
          if negb (String.eqb model (extended_model cfg)) && concatenated then
            exists p t,
              concatenate freq (map fold_pred folds) = Ok p /\
              concatenate freq (map fold_test folds) = Ok t /\
              fst r = (Some (Series p), Some (Series t))
          else
            exists t,
              py_first (map fold_test folds) = Ok t /\
              fst r = (Some (PerFold (map fold_pred folds)), Some (Series t))).
  Proof.
    rewrite get_predictions_eq.
    destruct (loop (seq 0 5) [] [] [] w) as [[[[[preds tests] rmses]|]|e] w1] eqn:E;
      [| |discriminate].
    - apply load_periods_Some_inv in E. destruct E as (-> & folds & HF & Hacc).
      unfold extend in Hacc. simpl in Hacc. inversion Hacc; subst; clear Hacc.
      intros H. right.
      destruct (negb (String.eqb model (extended_model cfg)) && concatenated).
      + destruct (concatenate freq (map fold_pred folds)) as [p|] eqn:Ep; [|discriminate].
        destruct (concatenate freq (map fold_test folds)) as [t|] eqn:Et; [|discriminate].
        inversion H; subst. split; [reflexivity|]. exists folds.
        split; [exact HF|]. split; [reflexivity|]. exists p, t. auto.
      + destruct (py_first _) as [t|] eqn:Et; [|discriminate].
        inversion H; subst. split; [reflexivity|]. exists folds.
        split; [exact HF|]. split; [reflexivity|]. exists t. auto.
    - apply load_periods_None_inv in E.
      destruct E as (done & k & rest & folds & Hsplit & HF & Hk & ->).
      intros H. inversion H; subst. left. split; [reflexivity|].
      exists k. repeat split; auto.
      assert (In k (seq 0 5)) as Hin by (rewrite Hsplit; apply in_elt).
      apply in_seq in Hin. lia.
  Qed.

  (** Five folds that load give the shaped output. *)
Lemma get_predictions_folds (concatenated : bool) (w : world V) folds :
    folds_load cfg rmse model model_name coin time_frame w folds ->
    get concatenated w =
    if negb (String.eqb model (extended_model cfg)) && concatenated then
      match concatenate freq (map fold_pred folds) with
      | Raise e => (Raise e, w)
      | Ok p =>
          match concatenate freq (map fold_test folds) with
          | Raise e => (Raise e, w)
          | Ok t => (Ok (Some (Series p), Some (Series t), Some (map fold_rmse folds)), w)
          end
      end
    else
      match py_first (map fold_test folds) with
      | Raise e => (Raise e, w)
      | Ok t => (Ok (Some (PerFold (map fold_pred folds)), Some (Series t),
                     Some (map fold_rmse folds)), w)
      end.
  Proof.
    intros HF. rewrite get_predictions_eq.
    now rewrite (load_periods_ok cfg rmse model model_name coin time_frame w _ folds HF).
  Qed.
End GetPredictionsFacts.

(** ** Concatenation *)

Section ConcatFacts.
Context {V : Type}.
Variable freq : TimeSeries V -> Z.

Lemma py_first_In {A} (xs : list A) (x : A) : py_first xs = Ok x -> In x xs.
Proof. destruct xs; [discriminate|]. inversion 1. now left. Qed.

Lemma py_last_In {A} (xs : list A) (x : A) : py_last xs = Ok x -> In x xs.
Proof.
  induction xs as [|a xs IH]; [discriminate|].
  simpl. destruct xs as [|b xs].
  - inversion 1. now left.
  - intros H. right. now apply IH.
Qed.

Lemma concatenate_Ok (series : list (TimeSeries V)) (s : TimeSeries V) :
    concatenate freq series = Ok s ->
    exists first start,
      py_first series = Ok first /\ start_time first = Ok start /\
      s = restamp start (freq first) (concat (map values series)).
Proof.
  unfold concatenate. unfold_monad.
  destruct (py_first series) as [first|] eqn:Hfirst; [|discriminate].
  destruct (consecutive (freq first) series) as [[|]|]; try discriminate.
  destruct (start_time first) as [start|] eqn:Hstart; [|discriminate].
  inversion 1. exists first, start. auto.
Qed.

Lemma concatenate_contiguous (series : list (TimeSeries V)) :
    contiguous freq series ->
    exists first start,
      py_first series = Ok first /\ start_time first = Ok start /\
      consecutive (freq first) series = Ok true /\
      concatenate freq series
      = Ok (restamp start (freq first) (concat (map values series))).
Proof.
  intros (first & start & Hfirst & Hstart & Hcons).
  exists first, start. repeat split; try assumption.
  unfold concatenate. unfold_monad. now rewrite Hfirst, Hcons, Hstart.
Qed.

  (** The generated axis has one timestamp per value, [step] apart. *)
Lemma restamp_length (start step : Z) (vals : list V) :
    length (restamp start step vals) = length vals.
Proof.
  unfold restamp. rewrite length_combine, length_map, length_seq. lia.
Qed.

Lemma restamp_values (start step : Z) (vals : list V) :
    values (restamp start step vals) = vals.
Proof.
  unfold restamp, values.
  generalize 0%nat as k. induction vals as [|v vals IH]; intros k; [reflexivity|].
  simpl. f_equal. apply IH.
Qed.

Lemma restamp_times (start step : Z) (vals : list V) :
    map fst (restamp start step vals)
    = map (fun i => start + Z.of_nat i * step) (seq 0 (length vals)).
Proof.
  unfold restamp.
  generalize 0%nat as k. induction vals as [|v vals IH]; intros k; [reflexivity|].
  simpl. f_equal. apply IH.
Qed.

Lemma restamp_increasing (start step : Z) (vals : list V) :
    0 < step -> increasing (restamp start step vals).
Proof.
  intros Hstep. unfold increasing. rewrite restamp_times.
  generalize 0%nat as k. generalize (length vals) as n.
  induction n as [|n IH]; intros k; simpl; constructor.
  - apply IH.
  - apply List.Forall_forall. intros t Ht.
    apply in_map_iff in Ht. destruct Ht as (i & <- & Hi).
    apply in_seq in Hi. nia.
Qed.

Lemma values_lengths (series : list (TimeSeries V)) :
    length (concat (map values series)) = list_sum (map length series).
Proof.
  rewrite length_concat, map_map. f_equal.
  apply map_ext. intros s. apply length_map.
Qed.

  (** Folds that darts accepts as contiguous and that follow each other
      in time are a positive step apart. *)
Lemma consecutive_step_positive (step : Z) (s0 s1 : TimeSeries V)
      (rest : list (TimeSeries V)) :
    consecutive step (s0 :: s1 :: rest) = Ok true ->
    chronological (s0 :: s1 :: rest) ->
    0 < step.
Proof.
  intros Hc [Hchr _]. simpl in Hc. unfold_monad.
  destruct (end_time s0) as [e|] eqn:He; [|discriminate].
  destruct (start_time s1) as [s|] eqn:Hs; [|discriminate].
  destruct (e + step =? s) eqn:E; [|discriminate].
  apply Z.eqb_eq in E.
  apply py_last_In in He. apply py_first_In in Hs.
  apply List.Forall_inv in Hchr. specialize (Hchr e s He Hs). lia.
Qed.
End ConcatFacts.

(** ** Missing artifacts *)

(** C2 (the code at a failing input): a tuple is not skipped whenever an
    artifact is missing.  In the sample store without [test_0.csv], whose
    [pred_0.csv] is present, the call does not return the sentinel
    [(None, None, None)]: it raises [FileNotFoundError], because only the
    prediction path is tested before the two reads.  The same store
    without [pred_3.csv] instead is skipped with the sentinel, as the
    caller's [if preds is not None] expects of every incomplete tuple. *)
Theorem missing_test_artifact_raises :
  files Sample.no_test0
    !! pred_file (Sample.loc "log_returns" "ARIMA") 0
  = Some (Table "time" "log returns" (Sample.fold_rows 0))
  /\ files Sample.no_test0 !! test_file (Sample.loc "log_returns" "ARIMA") 0 = None
  /\ (forall concatenated,
        fst (get_predictions Sample.cfg Sample.rmse Sample.freq
               "log_returns" "ARIMA" "BTC" "1d" concatenated Sample.no_test0)
        = Raise FileNotFoundError)
  /\ files Sample.no_pred3 !! pred_file (Sample.loc "log_returns" "ARIMA") 3 = None
  /\ (forall concatenated,
        fst (get_predictions Sample.cfg Sample.rmse Sample.freq
               "log_returns" "ARIMA" "BTC" "1d" concatenated Sample.no_pred3)
        = Ok (None, None, None)).
Proof.
  split; [vm_compute; reflexivity|]. split; [vm_compute; reflexivity|].
  split; [intros []; vm_compute; reflexivity|].
  split; [vm_compute; reflexivity|].
  intros []; vm_compute; reflexivity.
Qed.

(** ** The shape of the output *)

(** C5 (the code at a failing input): without concatenation the test
    output is not a list of five series.  For the log-return family, whose
    five test artifacts cover five different periods, the call with
    [concatenated = False] returns the five predictions as a list and, as
    test output, the single series of fold 0: [tests = tests[0]] runs on
    every non-concatenating path, also where the folds are not all the
    same. *)
Theorem tests_not_per_fold :
  exists preds test rmses,
    fst (get_predictions Sample.cfg Sample.rmse Sample.freq
           "log_returns" "ARIMA" "BTC" "1d" false Sample.full)
    = Ok (Some (PerFold preds), Some (Series test), Some rmses) /\
    length preds = 5%nat /\
    test = Sample.fold_rows 0 /\
    map fold_test (map Sample.fold (seq 0 5)) <> repeat test 5 /\
    ~ (exists tests, Some (Series test) = Some (PerFold tests) /\ length tests = 5%nat).
Proof.
  exists (map fold_pred (map Sample.fold (seq 0 5))), (Sample.fold_rows 0),
         (map fold_rmse (map Sample.fold (seq 0 5))).
  split; [vm_compute; reflexivity|]. split; [reflexivity|].
  split; [reflexivity|]. split.
  - intros H. vm_compute in H. discriminate H.
  - intros (tests & H & _). discriminate.
Qed.

(** ** The value column *)

Section ValueColumnFacts.
Variable cfg : config.

Lemma str_in_In (x : string) (xs : list string) : str_in x xs = true <-> In x xs.
  Proof.
    unfold str_in. rewrite existsb_exists. split.
    - intros (y & Hy & E). apply String.eqb_eq in E. now subst.
    - intros H. exists x. split; [assumption|apply String.eqb_refl].
  Qed.

Lemma str_in_not_In (x : string) (xs : list string) : str_in x xs = false <-> ~ In x xs.
  Proof.
    rewrite <- str_in_In. destruct (str_in x xs); split; congruence.
  Qed.
End ValueColumnFacts.
Section BoundColumn.
Context {V : Type}.
Variable cfg : config.
Variable rmse : TimeSeries V -> TimeSeries V -> result V.
Variable freq : TimeSeries V -> Z.
Variables model model_name coin time_frame : string.

Local Abbreviation loc :=
    (file_loc (model_output_dir cfg) model model_name coin time_frame).

  (** With [vc] bound, a fold loads exactly when it parses with [vc]. *)
Lemma fold_loads_parses (vc : string) (w : world V) (period : nat) fold :
    value_cols_of cfg model = Some vc ->
    fold_loads cfg rmse model model_name coin time_frame w period fold
    <-> fold_parses rmse loc vc w period fold.
Proof.
  intros Hvc. split.
  - intros (pdf & tdf & vc' & Hp & Hvc' & Hfp & Ht & Hft & He).
    rewrite Hvc in Hvc'. injection Hvc' as <-.
    exists pdf, tdf. auto.
  - intros (pdf & tdf & Hp & Hfp & Ht & Hft & He).
    exists pdf, tdf, vc. auto 6.
Qed.

Lemma folds_load_parse (vc : string) (w : world V) folds :
    value_cols_of cfg model = Some vc ->
    folds_load cfg rmse model model_name coin time_frame w folds
    <-> Forall2 (fold_parses rmse loc vc w) (seq 0 5) folds.
Proof.
  intros Hvc. unfold folds_load. generalize (seq 0 5) as periods.
  intros periods. split; intros HF; induction HF; constructor; auto;
    now apply (fold_loads_parses vc w _ _ Hvc).
Qed.

  (** The column [get_predictions] loads through is the one bound for
      the family. *)
Lemma bound_column_loads (vc : string) (w : world V) :
    value_cols_of cfg model = Some vc ->
    loads_with_column cfg rmse freq model model_name coin time_frame w vc.
Proof.
  intros Hvc. split.
  - intros folds HF. apply (folds_load_parse vc w folds Hvc) in HF.
    rewrite (get_predictions_folds cfg rmse freq _ _ _ _ false w folds HF).
    rewrite andb_false_r.
    destruct folds as [|first rest]; [inversion HF|].
    exists first, rest. split; reflexivity.
  - intros concatenated preds tests rmses w' H.
    apply get_predictions_inv in H. destruct H as [[H _]|(_ & folds & HF & Hr & Hshape)];
      [discriminate|].
    exists folds. split; [now apply (folds_load_parse vc w folds Hvc)|].
    split; [exact Hr|]. simpl in Hshape.
    destruct (negb (String.eqb model (extended_model cfg)) && concatenated).
    + destruct Hshape as (p & t & Hp & _ & E). right. exists p.
      split; [exact Hp|]. now inversion E.
    + destruct Hshape as (t & _ & E). left. now inversion E.
Qed.
End BoundColumn.

(** C6, as stated, fails in its last part: a family outside both lists is
    not always an error.  With no artifact stored, [get_predictions]
    returns the sentinel [(None, None, None)] normally. *)
Lemma unlisted_family_returns_sentinel :
  value_cols_of Sample.cfg "unknown" = None /\
  fst (get_predictions Sample.cfg Sample.rmse Sample.freq
         "unknown" "ARIMA" "BTC" "1d" true Sample.empty)
  = Ok (None, None, None).
Proof. split; reflexivity. Qed.

(** C6 (amended): a family among log-return, extended, scaled,
    scaled-to-log and raw-to-log binds the value column "log returns", and
    [get_predictions] loads its folds through that column: five folds
    whose artifacts parse with the columns ("time", "log returns") and
    ("date", "log returns") are returned, and every result other than the
    sentinel is built from five folds parsed so.  A family among raw,
    extended-to-raw and scaled-to-raw (and not among the former) binds
    "close", and its folds are loaded through "close" in the same way.
    Any other family never loads: the call returns the sentinel when
    [pred_0.csv] is missing and otherwise raises [UnboundLocalError]. *)
Theorem value_column_by_family
    {V : Type} (cfg : config)
    (rmse : TimeSeries V -> TimeSeries V -> result V) (freq : TimeSeries V -> Z)
    (model model_name coin time_frame : string) (concatenated : bool)
    (w : world V) :
  let log_families := [log_returns_model cfg; extended_model cfg; scaled_model cfg;
                       scaled_to_log_model cfg; raw_to_log_model cfg] in
  let price_families := [raw_model cfg; extended_to_raw_model cfg;
                         scaled_to_raw_model cfg] in
  let loc := file_loc (model_output_dir cfg) model model_name coin time_frame in
  (In model log_families ->
     value_cols_of cfg model = Some "log returns" /\
     loads_with_column cfg rmse freq model model_name coin time_frame w "log returns")
  /\ (In model price_families -> ~ In model log_families ->
      value_cols_of cfg model = Some "close" /\
      loads_with_column cfg rmse freq model model_name coin time_frame w "close")
  /\ (~ In model log_families -> ~ In model price_families ->
      get_predictions cfg rmse freq model model_name coin time_frame concatenated w
      = match files w !! pred_file loc 0 with
        | None => (Ok (None, None, None),
                   warned cfg model model_name coin time_frame w 0)
        | Some _ => (Raise UnboundLocalError, w)
        end).
Proof.
  intros log_families price_families loc. repeat apply conj.
  - intros H. apply str_in_In in H.
    assert (value_cols_of cfg model = Some "log returns") as Hvc.
    { unfold value_cols_of. fold log_families. now rewrite H. }
    split; [exact Hvc|]. now apply bound_column_loads.
  - intros Hp Hl. apply str_in_In in Hp. apply str_in_not_In in Hl.
    assert (value_cols_of cfg model = Some "close") as Hvc.
    { unfold value_cols_of. fold log_families price_families. now rewrite Hl, Hp. }
    split; [exact Hvc|]. now apply bound_column_loads.
  - intros Hl Hp. apply str_in_not_In in Hl, Hp.
    assert (value_cols_of cfg model = None) as Hvc.
    { unfold value_cols_of. fold log_families price_families. now rewrite Hl, Hp. }
    rewrite get_predictions_eq. simpl. unfold_monad.
    rewrite load_period_eq, Hvc. fold loc.
    destruct (files w !! pred_file loc 0); reflexivity.
Qed.

(** The log-return family of the sample configuration: the five folds of
    the sample store parse with "log returns" and are what the call
    returns. *)
Lemma value_column_by_family_witness :
  get_predictions Sample.cfg Sample.rmse Sample.freq
    "log_returns" "ARIMA" "BTC" "1d" false Sample.full
  = (Ok (Some (PerFold (map fold_pred (map Sample.fold (seq 0 5)))),
         Some (Series (fold_test (Sample.fold 0))),
         Some (map fold_rmse (map Sample.fold (seq 0 5)))), Sample.full).
Proof.
  destruct (value_column_by_family Sample.cfg Sample.rmse Sample.freq
              "log_returns" "ARIMA" "BTC" "1d" false Sample.full) as [Hlog _].
  destruct Hlog as [_ [Hfwd _]]; [simpl; auto|].
  destruct (Hfwd (map Sample.fold (seq 0 5))) as (first & rest & Hfolds & Hget).
  - simpl seq. simpl map.
    constructor; [sample_fold_parses 0%nat|].
    constructor; [sample_fold_parses 1%nat|].
    constructor; [sample_fold_parses 2%nat|].
    constructor; [sample_fold_parses 3%nat|].
    constructor; [sample_fold_parses 4%nat|].
    constructor.
  - injection Hfolds as <- _. exact Hget.
Defined.

(** ** Concatenated output *)

(** C10: when all five fold pairs load, the family is not the ML-ensemble
    family, darts accepts the prediction folds and the test folds as
    contiguous, and the prediction folds follow each other in time, then
    [get_predictions] returns one concatenated prediction series: it has
    as many rows as the five folds together, it holds their values fold
    after fold, and its timestamps strictly increase throughout, across
    every concatenation boundary. *)
Theorem concatenated_length_and_order
    {V : Type} (cfg : config)
    (rmse : TimeSeries V -> TimeSeries V -> result V) (freq : TimeSeries V -> Z)
    (model model_name coin time_frame : string)
    (w : world V) (folds : list (TimeSeries V * TimeSeries V * V)) :
  folds_load cfg rmse model model_name coin time_frame w folds ->
  model <> extended_model cfg ->
  contiguous freq (map fold_pred folds) ->
  contiguous freq (map fold_test folds) ->
  chronological (map fold_pred folds) ->
  exists preds tests,
    get_predictions cfg rmse freq model model_name coin time_frame true w
    = (Ok (Some (Series preds), Some (Series tests), Some (map fold_rmse folds)), w)
    /\ length (map fold_pred folds) = 5%nat
    /\ length preds = list_sum (map length (map fold_pred folds))
    /\ values preds = concat (map values (map fold_pred folds))
    /\ increasing preds.
Proof.
  intros HF Hne Hcp Hct Hchr.
  destruct (concatenate_contiguous freq _ Hcp) as (pf & ps & Hpf & Hps & Hpc & Hp).
  destruct (concatenate_contiguous freq _ Hct) as (tf & ts & _ & _ & _ & Ht).
  eexists _, _. split; [|split; [|split; [|split]]].
  - rewrite (get_predictions_folds cfg rmse freq _ _ _ _ true w folds HF).
    apply String.eqb_neq in Hne. rewrite Hne. simpl.
    rewrite Hp, Ht. reflexivity.
  - rewrite length_map. symmetry. apply (Forall2_length _ _ _ HF).
  - rewrite restamp_length. apply values_lengths.
  - apply restamp_values.
  - apply restamp_increasing.
    pose proof (Forall2_length _ _ _ HF) as Hlen. simpl in Hlen.
    destruct folds as [|f0 [|f1 rest]]; try discriminate Hlen.
    simpl in Hpf. injection Hpf as <-.
    exact (consecutive_step_positive _ _ _ _ Hpc Hchr).
Qed.

(** The five folds of the sample store: fifteen rows at the timestamps
    [1 .. 15]. *)
Lemma concatenated_length_and_order_witness :
  exists preds tests,
    get_predictions Sample.cfg Sample.rmse Sample.freq
      "log_returns" "ARIMA" "BTC" "1d" true Sample.full
    = (Ok (Some (Series preds), Some (Series tests),
           Some (map fold_rmse (map Sample.fold (seq 0 5)))), Sample.full)
    /\ length (map fold_pred (map Sample.fold (seq 0 5))) = 5%nat
    /\ length preds = list_sum (map length (map fold_pred (map Sample.fold (seq 0 5))))
    /\ values preds = concat (map values (map fold_pred (map Sample.fold (seq 0 5))))
    /\ increasing preds.
Proof.
  apply (concatenated_length_and_order Sample.cfg Sample.rmse Sample.freq
           "log_returns" "ARIMA" "BTC" "1d" Sample.full (map Sample.fold (seq 0 5))).
  - unfold folds_load. simpl seq. simpl map.
    constructor; [sample_fold_loads 0%nat|].
    constructor; [sample_fold_loads 1%nat|].
    constructor; [sample_fold_loads 2%nat|].
    constructor; [sample_fold_loads 3%nat|].
    constructor; [sample_fold_loads 4%nat|].
    constructor.
  - discriminate.
  - exists (Sample.fold_rows 0), 1. repeat split; reflexivity.
  - exists (Sample.fold_rows 0), 1. repeat split; reflexivity.
  - simpl. repeat split; repeat constructor; simpl; intros; lia.
Defined.

(** ** The per-fold conversion *)

Section ListFacts.
Context {A B : Type}.

Lemma py_last_app (xs : list A) (x : A) : py_last (xs ++ [x]) = Ok x.
  Proof.
    induction xs as [|a xs IH]; [reflexivity|].
    simpl. destruct (xs ++ [x]) eqn:E; [destruct xs; discriminate|exact IH].
  Qed.

Lemma py_first_Ok (xs : list A) (x : A) : py_first xs = Ok x -> xs <> [].
  Proof. destruct xs; [discriminate|congruence]. Qed.

Lemma map_fst_combine (xs : list A) (ys : list B) :
    length xs = length ys -> map fst (combine xs ys) = xs.
  Proof.
    revert ys. induction xs as [|x xs IH]; intros [|y ys] H; simpl in *;
      try discriminate; [reflexivity|]. f_equal. apply IH. lia.
  Qed.

Lemma combine_fst_snd (rows : list (A * B)) :
    combine (map fst rows) (map snd rows) = rows.
  Proof. induction rows as [|[a b] rows IH]; simpl; congruence. Qed.

Lemma skipn_1_firstn (k : nat) (xs : list A) :
    skipn 1 (firstn (S k) xs) = firstn k (skipn 1 xs).
  Proof. destruct xs; simpl; [now rewrite firstn_nil|reflexivity]. Qed.

Lemma skipn_1_map (f : A -> B) (xs : list A) : skipn 1 (map f xs) = map f (skipn 1 xs).
  Proof. destruct xs; reflexivity. Qed.

Lemma skipn_1_skipn (k : nat) (xs : list A) : skipn 1 (skipn k xs) = skipn (S k) xs.
  Proof.
    revert xs. induction k as [|k IH]; intros [|x xs]; try reflexivity.
    simpl. rewrite <- IH. reflexivity.
  Qed.
End ListFacts.

Section SliceFacts.
Context {A : Type}.

Lemma positions_bounds (t : time) (idx : list time) :
    forall k i, In i (positions t idx k) -> k <= i < k + Z.of_nat (length idx).
  Proof.
    induction idx as [|t' idx IH]; intros k i H; simpl in *; [contradiction|].
    destruct (t' =? t).
    - destruct H as [<-|H]; [lia|]. apply IH in H. lia.
    - apply IH in H. lia.
  Qed.

Lemma get_loc_bounds (idx : list time) (t : time) (i : Z) :
    get_loc idx t = Ok i -> 0 <= i < Z.of_nat (length idx).
  Proof.
    unfold get_loc. intros H.
    destruct (positions t idx 0) as [|j [|? ?]] eqn:E; try discriminate.
    inversion H; subst j.
    apply (positions_bounds t idx 0 i). rewrite E. now left.
  Qed.

  (** A slice whose lower bound is [-1] starts at the last row. *)
Lemma py_slice_from_end (xs : list A) (b : Z) :
    (length (py_slice xs (-1) b) <= 1)%nat.
  Proof.
    unfold py_slice, clamp_index. change (-1 <? 0) with true. cbv beta iota zeta.
    rewrite length_firstn, length_skipn.
    destruct (b <? 0); lia.
  Qed.

  (** Within the frame, the slice is the rows from the lower bound up to,
      and not including, the upper bound. *)
Lemma py_slice_inside (xs : list A) (a b : Z) :
    0 <= a -> 0 <= b <= Z.of_nat (length xs) ->
    py_slice xs a b = rows_between xs a (b - 1).
  Proof.
    intros Ha Hb. unfold py_slice, rows_between, clamp_index.
    destruct (a <? 0) eqn:Ea; [lia|]. destruct (b <? 0) eqn:Eb; [lia|].
    destruct (Z_le_gt_dec a (Z.of_nat (length xs))) as [Hle|Hgt].
    - rewrite (Z.min_l a), (Z.min_l b) by lia. do 2 f_equal. lia.
    - rewrite (Z.min_r a), (Z.min_l b) by lia.
      rewrite !skipn_all2 by lia. now rewrite !firstn_nil.
  Qed.

Lemma rows_between_tail (xs : list A) (s e : Z) :
    1 <= s <= e ->
    skipn 1 (rows_between xs (s - 1) e) = rows_between xs s e.
  Proof.
    intros H. unfold rows_between.
    replace (Z.to_nat (e - (s - 1) + 1)) with (S (Z.to_nat (e - s + 1))) by lia.
    rewrite skipn_1_firstn, skipn_1_skipn. do 2 f_equal. lia.
  Qed.
End SliceFacts.

Section ConvertFacts.
Context {V : Type}.
Variable fmul : V -> V -> V.
Variable fexp : V -> V.

Lemma compound_length (vals : list V) :
    forall close cl,
      compound fmul fexp close vals = Ok cl ->
      length cl = (length close + length vals)%nat.
  Proof.
    induction vals as [|v vals IH]; intros close cl H; simpl in H.
    - inversion H; subst. simpl. lia.
    - unfold_monad. destruct (py_last close) as [prev|]; [|discriminate].
      apply IH in H. rewrite length_app in H. simpl in *. lia.
  Qed.

  (** Seeded with a price, the compounding loop never faults. *)
Lemma compound_total (vals : list V) :
    forall close x, exists cl, compound fmul fexp (close ++ [x]) vals = Ok cl.
  Proof.
    induction vals as [|v vals IH]; intros close x; simpl.
    - eauto.
    - unfold_monad. rewrite py_last_app. apply IH.
  Qed.

  (** What a successful conversion of one fold went through. *)
Lemma convert_fold_inv (price_df : table V) (prediction : TimeSeries V)
        (close test : table V) :
    convert_fold fmul fexp price_df prediction = Ok (close, test) ->
    exists st et s e anchor cl,
      start_time prediction = Ok st /\
      end_time prediction = Ok et /\
      get_loc (map fst (rows price_df)) st = Ok s /\
      get_loc (map fst (rows price_df)) et = Ok e /\
      1 <= s /\ s <= e /\ e < Z.of_nat (length (rows price_df)) /\
      e - s + 1 = Z.of_nat (length prediction) /\
      slice_window price_df prediction = Ok (rows_between (rows price_df) (s - 1) e) /\
      py_first (map snd (rows_between (rows price_df) (s - 1) e)) = Ok anchor /\
      compound fmul fexp [anchor] (values prediction) = Ok cl /\
      length cl = S (length prediction) /\
      close = Table "time" "close"
                (skipn 1 (combine (map fst (rows_between (rows price_df) (s - 1) e)) cl)) /\
      test = Table (time_col price_df) "close" (rows_between (rows price_df) s e).
  Proof.
    intros H. unfold convert_fold in H. unfold_monad.
    destruct (slice_window price_df prediction) as [sliced|] eqn:Hs; [|discriminate].
    unfold column in H. simpl value_col in H. simpl rows in H.
    destruct (String.eqb (value_col price_df) "close"); [|discriminate].
    destruct (py_first (map snd sliced)) as [anchor|] eqn:Ha; [|discriminate].
    destruct (compound fmul fexp [anchor] (values prediction)) as [cl|] eqn:Hcl;
      [|discriminate].
    unfold indexed_frame in H.
    destruct (Nat.eqb (length (map fst sliced)) (length cl)) eqn:Hlen; [|discriminate].
    rewrite !length_map, Nat.eqb_refl in H. rewrite combine_fst_snd in H.
    inversion H; subst close test; clear H.
    apply Nat.eqb_eq in Hlen. rewrite length_map in Hlen.
    apply compound_length in Hcl as Hcl_len. simpl in Hcl_len.
    unfold values in Hcl_len. rewrite length_map in Hcl_len.
    pose proof Hs as Hs'. unfold slice_window in Hs. unfold_monad.
    destruct (start_time prediction) as [st|] eqn:Hst; [|discriminate].
    destruct (get_loc (map fst (rows price_df)) st) as [s|] eqn:Hgs; [|discriminate].
    destruct (end_time prediction) as [et|] eqn:Het; [|discriminate].
    destruct (get_loc (map fst (rows price_df)) et) as [e|] eqn:Hge; [|discriminate].
    injection Hs as H0.
    apply get_loc_bounds in Hgs as Bs. apply get_loc_bounds in Hge as Be.
    rewrite length_map in Bs, Be.
    assert (prediction <> []) as Hne.
    { intros ->. discriminate. }
    assert (1 <= length prediction)%nat as Hpl.
    { destruct prediction; [congruence|simpl; lia]. }
    assert (1 <= s) as Hs1.
    { destruct (Z.eq_dec s 0) as [->|]; [|lia].
      pose proof (py_slice_from_end (rows price_df) (e + 1)) as Hle.
      change (0 - 1) with (-1) in H0. rewrite H0 in Hle. lia. }
    rewrite py_slice_inside in H0 by lia.
    replace (e + 1 - 1) with e in H0 by lia.
    assert (length sliced = Z.to_nat (e - (s - 1) + 1)
                              `min` (length (rows price_df) - Z.to_nat (s - 1)))%nat
      as Hsl.
    { rewrite <- H0. unfold rows_between. now rewrite length_firstn, length_skipn. }
    subst sliced. exists st, et, s, e, anchor, cl.
    assert (s <= e) as Hse by lia.
    rewrite rows_between_tail by lia.
    repeat split; auto; lia.
  Qed.
End ConvertFacts.

Section WindowFacts.
Context {V : Type}.
Variable fmul : V -> V -> V.
Variable fexp : V -> V.

Lemma rows_between_length {A} (xs : list A) (i j : Z) :
    0 <= i -> i <= j + 1 -> j < Z.of_nat (length xs) ->
    length (rows_between xs i j) = Z.to_nat (j - i + 1).
  Proof.
    intros Hi Hij Hj. unfold rows_between.
    rewrite length_firstn, length_skipn. lia.
  Qed.

  (** The rows of the two saved frames: both sit on the rows of the price
      history from the start row to the end row of the forecast. *)
Lemma convert_fold_rows (price_df : table V) (prediction : TimeSeries V)
        (close test : table V) :
    convert_fold fmul fexp price_df prediction = Ok (close, test) ->
    exists st et s e,
      start_time prediction = Ok st /\
      end_time prediction = Ok et /\
      get_loc (map fst (rows price_df)) st = Ok s /\
      get_loc (map fst (rows price_df)) et = Ok e /\
      1 <= s /\ s <= e /\ e < Z.of_nat (length (rows price_df)) /\
      slice_window price_df prediction = Ok (rows_between (rows price_df) (s - 1) e) /\
      map fst (rows close) = map fst (rows_between (rows price_df) s e) /\
      rows test = rows_between (rows price_df) s e.
  Proof.
    intros H. apply convert_fold_inv in H.
    destruct H as (st & et & s & e & anchor & cl & Hst & Het & Hs & He & Hs1 & Hse
                   & Hen & Hlen & Hslice & _ & _ & Hcl & -> & ->).
    exists st, et, s, e. repeat split; auto. simpl.
    rewrite <- skipn_1_map, map_fst_combine.
    - rewrite skipn_1_map. f_equal. apply rows_between_tail. lia.
    - rewrite length_map, rows_between_length by lia. lia.
  Qed.
End WindowFacts.

(** ** The window around a forecast *)

(** C4, as stated, fails in its first part: the slice does not reach one
    row after the end-time row.  For prices at times [0 .. 3] and a
    forecast for times [1] and [2] (rows 1 and 2), the slice is rows
    [0 .. 2]; row 3, one after the end row, is not in it. *)
Lemma slice_stops_at_end_row :
  get_loc (map fst (rows Sample.prices)) 1 = Ok 1 /\
  get_loc (map fst (rows Sample.prices)) 2 = Ok 2 /\
  slice_window Sample.prices Sample.forecast
  = Ok (rows_between (rows Sample.prices) (1 - 1) 2) /\
  slice_window Sample.prices Sample.forecast
  <> Ok (rows_between (rows Sample.prices) (1 - 1) (2 + 1)).
Proof.
  split; [reflexivity|]. split; [reflexivity|]. split; [reflexivity|].
  intros H. apply (f_equal (fun r => match r with
                                     | Ok l => length l
                                     | Raise _ => 0%nat
                                     end)) in H.
  discriminate H.
Qed.

(** C4 (amended): for every fold the loop body converts, with [s] and [e]
    the row positions of the forecast's start and end time, the slice
    spans from exactly one row before the start row to the end row itself
    ([end_pos], one past the end row, is an exclusive bound); there is a
    row before the start row; and after the anchor row is dropped both
    saved series sit on exactly the rows [s .. e], so no row before the
    anchor, nor the anchor, nor any row after the forecast end is in
    them. *)
Theorem slice_and_saved_rows
    {V : Type} (fmul : V -> V -> V) (fexp : V -> V)
    (price_df : table V) (prediction : TimeSeries V) (close test : table V) :
  convert_fold fmul fexp price_df prediction = Ok (close, test) ->
  exists st et s e,
    start_time prediction = Ok st /\
    end_time prediction = Ok et /\
    get_loc (map fst (rows price_df)) st = Ok s /\
    get_loc (map fst (rows price_df)) et = Ok e /\
    1 <= s /\ s <= e /\ e < Z.of_nat (length (rows price_df)) /\
    slice_window price_df prediction = Ok (rows_between (rows price_df) (s - 1) e) /\
    map fst (rows close) = map fst (rows_between (rows price_df) s e) /\
    rows test = rows_between (rows price_df) s e.
Proof. apply convert_fold_rows. Qed.

(** The sample forecast converts, on rows 1 and 2 of the price history. *)
Lemma slice_and_saved_rows_witness :
  convert_fold Rmult exp Sample.prices Sample.forecast
  = Ok (Sample.reconstructed, Sample.ground_truth)
  /\ exists st et s e,
    start_time Sample.forecast = Ok st /\
    end_time Sample.forecast = Ok et /\
    get_loc (map fst (rows Sample.prices)) st = Ok s /\
    get_loc (map fst (rows Sample.prices)) et = Ok e /\
    1 <= s /\ s <= e /\ e < Z.of_nat (length (rows Sample.prices)) /\
    slice_window Sample.prices Sample.forecast
    = Ok (rows_between (rows Sample.prices) (s - 1) e) /\
    map fst (rows Sample.reconstructed) = map fst (rows_between (rows Sample.prices) s e) /\
    rows Sample.ground_truth = rows_between (rows Sample.prices) s e.
Proof.
  split; [reflexivity|].
  apply (slice_and_saved_rows Rmult exp Sample.prices Sample.forecast
           Sample.reconstructed Sample.ground_truth).
  reflexivity.
Defined.

(** ** Artifact paths *)

Lemma append_inj_l (p s1 s2 : string) : p +:+ s1 = p +:+ s2 -> s1 = s2.
Proof.
  induction p as [|c p IH]; intros H; [exact H|].
  change (String c (p +:+ s1) = String c (p +:+ s2)) in H.
  injection H as H. auto.
Qed.

Lemma list_ascii_append (s t : string) :
  String.list_ascii_of_string (s +:+ t) = String.list_ascii_of_string s ++ String.list_ascii_of_string t.
Proof. induction s as [|c s IH]; [reflexivity|simpl; congruence]. Qed.

Lemma append_inj_r (s1 s2 t : string) : s1 +:+ t = s2 +:+ t -> s1 = s2.
Proof.
  intros H. apply (f_equal String.list_ascii_of_string) in H.
  rewrite !list_ascii_append in H. apply app_inv_tail in H.
  rewrite <- (String.string_of_list_ascii_of_string s1), H.
  apply String.string_of_list_ascii_of_string.
Qed.

Lemma str_of_nat_inj (i j : nat) : str_of_nat i = str_of_nat j -> i = j.
Proof.
  unfold str_of_nat. intros H.
  apply (f_equal NilEmpty.uint_of_string) in H.
  rewrite !NilEmpty.usu in H. injection H as H.
  now apply DecimalNat.Unsigned.to_uint_inj.
Qed.

Lemma pred_file_inj (loc : string) (i j : nat) :
  pred_file loc i = pred_file loc j -> i = j.
Proof.
  unfold pred_file. intros H. apply append_inj_l in H.
  apply (append_inj_l "/pred_") in H. apply append_inj_r in H.
  now apply str_of_nat_inj.
Qed.

Lemma test_file_inj (loc : string) (i j : nat) :
  test_file loc i = test_file loc j -> i = j.
Proof.
  unfold test_file. intros H. apply append_inj_l in H.
  apply (append_inj_l "/test_") in H. apply append_inj_r in H.
  now apply str_of_nat_inj.
Qed.

Lemma pred_file_not_test_file (loc : string) (i j : nat) :
  pred_file loc i <> test_file loc j.
Proof.
  unfold pred_file, test_file. intros H. apply append_inj_l in H.
  change ("/pred_" +:+ str_of_nat i +:+ ".csv")
    with (String "/"%char (String "p"%char ("red_" +:+ str_of_nat i +:+ ".csv"))) in H.
  change ("/test_" +:+ str_of_nat j +:+ ".csv")
    with (String "/"%char (String "t"%char ("est_" +:+ str_of_nat j +:+ ".csv"))) in H.
  discriminate H.
Qed.

(** ** The saving loop *)

Section SaveFacts.
Context {V : Type}.
Variable fmul : V -> V -> V.
Variable fexp : V -> V.
Variable save_loc : string.
Variable price_df : table V.

Local Abbreviation save := (save_folds fmul fexp save_loc price_df).

  (** The world after the two [to_csv] calls of iteration [i]. *)
Lemma save_folds_cons (i : nat) (prediction : TimeSeries V)
        (rest : list (TimeSeries V)) (w : world V) :
    save i (prediction :: rest) w =
    match convert_fold fmul fexp price_df prediction with
    | Raise e => (Raise e, w)
    | Ok (close, test) =>
        save (S i) rest
          (World (<[test_file save_loc i := test]>
                    (<[pred_file save_loc i := close]> (files w)))
                 ((trace w ++ [EToCsv (pred_file save_loc i)])
                  ++ [EToCsv (test_file save_loc i)]))
    end.
  Proof.
    simpl. unfold_monad.
    destruct (convert_fold fmul fexp price_df prediction) as [[close test]|];
      reflexivity.
  Qed.

  (** Paths that no later iteration writes keep their content. *)
Lemma save_folds_frame (preds : list (TimeSeries V)) :
    forall (i : nat) (w w' : world V),
      save i preds w = (Ok tt, w') ->
      forall path,
        (forall j, (i <= j)%nat ->
                   path <> pred_file save_loc j /\ path <> test_file save_loc j) ->
        files w' !! path = files w !! path.
  Proof.
    induction preds as [|prediction rest IH]; intros i w w' H path Hpath.
    - simpl in H. inversion H. reflexivity.
    - rewrite save_folds_cons in H.
      destruct (convert_fold fmul fexp price_df prediction) as [[close test]|];
        [|discriminate].
      apply IH with (path := path) in H.
      + rewrite H. simpl.
        destruct (Hpath i (Nat.le_refl i)) as [Hp Ht].
        rewrite lookup_insert_ne by congruence.
        now rewrite lookup_insert_ne by congruence.
      + intros j Hj. apply Hpath. lia.
  Qed.

  (** Every fold of a completed loop is in the store, as converted. *)
Lemma save_folds_saved (preds : list (TimeSeries V)) :
    forall (i : nat) (w w' : world V),
      save i preds w = (Ok tt, w') ->
      forall j prediction,
        nth_error preds j = Some prediction ->
        exists close test,
          convert_fold fmul fexp price_df prediction = Ok (close, test) /\
          files w' !! pred_file save_loc (i + j) = Some close /\
          files w' !! test_file save_loc (i + j) = Some test.
  Proof.
    induction preds as [|first rest IH]; intros i w w' H j prediction Hj.
    - destruct j; discriminate.
    - rewrite save_folds_cons in H.
      destruct (convert_fold fmul fexp price_df first) as [[close test]|] eqn:E;
        [|discriminate].
      destruct j as [|j]; simpl in Hj.
      + inversion Hj; subst first. exists close, test.
        rewrite Nat.add_0_r. split; [exact E|].
        split.
        * rewrite (save_folds_frame rest (S i) _ w' H).
          -- simpl. rewrite lookup_insert_ne
               by (intros K; symmetry in K; now apply pred_file_not_test_file in K).
             apply lookup_insert_eq.
          -- intros k Hk. split.
             ++ intros K. apply pred_file_inj in K. lia.
             ++ apply pred_file_not_test_file.
        * rewrite (save_folds_frame rest (S i) _ w' H).
          -- simpl. apply lookup_insert_eq.
          -- intros k Hk. split.
             ++ intros K. symmetry in K. now apply pred_file_not_test_file in K.
             ++ intros K. apply test_file_inj in K. lia.
      + replace (i + S j)%nat with (S i + j)%nat by lia.
        apply (IH (S i) _ w' H j prediction Hj).
  Qed.
End SaveFacts.

(** C8: for every fold that [log_returns_to_price]'s loop saves, the
    reconstructed prediction series and the ground-truth series in the
    store have equal length and the same timestamps, row by row. *)
Theorem saved_series_aligned
    {V : Type} (fmul : V -> V -> V) (fexp : V -> V)
    (save_loc : string) (price_df : table V) (i : nat)
    (preds : list (TimeSeries V)) (w w' : world V)
    (j : nat) (prediction : TimeSeries V) :
  save_folds fmul fexp save_loc price_df i preds w = (Ok tt, w') ->
  nth_error preds j = Some prediction ->
  exists close test,
    files w' !! pred_file save_loc (i + j) = Some close /\
    files w' !! test_file save_loc (i + j) = Some test /\
    length (rows close) = length (rows test) /\
    map fst (rows close) = map fst (rows test).
Proof.
  intros H Hj.
  destruct (save_folds_saved fmul fexp save_loc price_df preds i w w' H j prediction Hj)
    as (close & test & Hc & Hp & Ht).
  exists close, test. split; [exact Hp|]. split; [exact Ht|].
  apply convert_fold_rows in Hc.
  destruct Hc as (st & et & s & e & _ & _ & _ & _ & _ & _ & _ & _ & Hclose & Htest).
  assert (map fst (rows close) = map fst (rows test)) as Hsame
    by (now rewrite Hclose, Htest).
  split; [|exact Hsame].
  apply (f_equal (@length _)) in Hsame. now rewrite !length_map in Hsame.
Qed.

(** Saving the sample forecast: two rows each, at times 1 and 2. *)
Lemma saved_series_aligned_witness :
  exists close test,
    files (snd (save_folds Rmult exp "out" Sample.prices 0 [Sample.forecast] Sample.empty))
      !! pred_file "out" (0 + 0) = Some close /\
    files (snd (save_folds Rmult exp "out" Sample.prices 0 [Sample.forecast] Sample.empty))
      !! test_file "out" (0 + 0) = Some test /\
    length (rows close) = length (rows test) /\
    map fst (rows close) = map fst (rows test).
Proof.
  apply (saved_series_aligned Rmult exp "out" Sample.prices 0 [Sample.forecast]
           Sample.empty _ 0 Sample.forecast).
  - reflexivity.
  - reflexivity.
Defined.

(** ** The store is only read by [get_predictions] *)

Section ReadOnly.
Context {V : Type}.
Variable cfg : config.
Variable rmse : TimeSeries V -> TimeSeries V -> result V.
Variable freq : TimeSeries V -> Z.
Variables model model_name coin time_frame : string.

Local Abbreviation body :=
    (load_period cfg rmse model model_name coin time_frame (value_cols_of cfg model)).
Local Abbreviation loop :=
    (load_periods cfg rmse model model_name coin time_frame (value_cols_of cfg model)).
Local Abbreviation get := (get_predictions cfg rmse freq model model_name coin time_frame).

Lemma load_period_files (w1 w2 : world V) (period : nat) :
    files w1 = files w2 ->
    fst (body period w1) = fst (body period w2) /\
    files (snd (body period w1)) = files w1.
  Proof.
    intros H. rewrite !load_period_eq, <- H.
    destruct (files w1 !! _); [|now split].
    destruct (value_cols_of cfg model); [|now split].
    destruct (from_dataframe _ _ _); [|now split].
    destruct (files w1 !! _); [|now split].
    destruct (from_dataframe _ _ _); [|now split].
    destruct (rmse _ _); now split.
  Qed.

Lemma load_periods_files (periods : list nat) :
    forall (w1 w2 : world V) preds tests rmses,
      files w1 = files w2 ->
      fst (loop periods preds tests rmses w1) = fst (loop periods preds tests rmses w2) /\
      files (snd (loop periods preds tests rmses w1)) = files w1.
  Proof.
    induction periods as [|period periods IH]; intros w1 w2 preds tests rmses H.
    - now split.
    - simpl. unfold_monad.
      destruct (load_period_files w1 w2 period H) as [Hr Hf1].
      destruct (load_period_files w2 w1 period (eq_sym H)) as [_ Hf2].
      destruct (body period w1) as [r1 w1'], (body period w2) as [r2 w2'].
      simpl in *. subst r2.
      destruct r1 as [[[[pred test] e]|]|e]; [|now split|now split].
      destruct (IH w1' w2' (preds ++ [pred]) (tests ++ [test]) (rmses ++ [e]))
        as [Hr' Hf']; [congruence|].
      split; [exact Hr'|congruence].
  Qed.

Lemma get_predictions_files (concatenated : bool) (w1 w2 : world V) :
    files w1 = files w2 ->
    fst (get concatenated w1) = fst (get concatenated w2) /\
    files (snd (get concatenated w1)) = files w1.
  Proof.
    intros H. rewrite !get_predictions_eq.
    destruct (load_periods_files (seq 0 5) w1 w2 [] [] [] H) as [Hr Hf].
    destruct (loop (seq 0 5) [] [] [] w1) as [r1 w1'],
             (loop (seq 0 5) [] [] [] w2) as [r2 w2'].
    simpl in *. subst r2.
    destruct r1 as [[[[preds tests] rmses]|]|e]; [|now split|now split].
    destruct (negb (String.eqb model (extended_model cfg)) && concatenated).
    - destruct (concatenate freq preds); [|now split].
      destruct (concatenate freq tests); now split.
    - destruct (py_first tests); now split.
  Qed.
End ReadOnly.

(** ** Dictionaries and the summary table *)

Section DictFacts.
Context {A : Type}.

Lemma dict_set_keys (k : string) (v : A) (d : list (string * A)) :
    map fst (dict_set k v d)
    = if str_in k (map fst d) then map fst d else map fst d ++ [k].
  Proof.
    induction d as [|[k' v'] d IH]; simpl; [reflexivity|].
    rewrite (String.eqb_sym k k').
    destruct (String.eqb k' k) eqn:E; simpl.
    - apply String.eqb_eq in E. now subst.
    - rewrite IH. unfold str_in. destruct (existsb (String.eqb k) (map fst d)); reflexivity.
  Qed.

Lemma dict_set_In (k : string) (v : A) (d : list (string * A)) (kv : string * A) :
    In kv (dict_set k v d) -> kv = (k, v) \/ In kv d.
  Proof.
    induction d as [|[k' v'] d IH]; simpl.
    - intros [H|[]]; auto.
    - destruct (String.eqb k' k); simpl; intros [H|H]; auto.
      destruct (IH H); auto.
  Qed.

End DictFacts.

Section FrameFacts.
Context {V : Type}.

  (** Columns that are all lists of one length make a frame with one
      column per key. *)
Lemma DataFrame_columns (n : nat) (d : list (string * option (list V))) :
    Forall (fun kv => exists l, snd kv = Some l /\ length l = n) d ->
    exists df, DataFrame d = Ok df /\ map fst df = map fst d.
  Proof.
    intros H. unfold DataFrame.
    assert (column_lengths d = repeat n (length d)) as Hlen.
    { unfold column_lengths. induction H as [|[k c] d (l & Hc & Hl) _ IH];
        [reflexivity|]. simpl in Hc. subst c. cbn. f_equal; assumption. }
    destruct d as [|kv d]; [now exists []|]. rewrite Hlen. simpl.
    assert (forallb (Nat.eqb n) (repeat n (length d)) = true) as ->.
    { induction (length d); simpl; [reflexivity|]. now rewrite Nat.eqb_refl. }
    eexists. split; [reflexivity|]. simpl. f_equal. now rewrite map_map.
  Qed.
End FrameFacts.

(** ** The loop of [all_model_predictions] *)

Section CollectFacts.
Context {V : Type}.
Variable cfg : config.
Variable rmse : TimeSeries V -> TimeSeries V -> result V.
Variable freq : TimeSeries V -> Z.
Variables model coin time_frame : string.
Variable w0 : world V.

Local Abbreviation out := (outcome cfg rmse freq model coin time_frame w0).
Local Abbreviation avail := (available cfg rmse freq model coin time_frame w0).
Local Abbreviation coll := (collect cfg rmse freq model coin time_frame w0).

Lemma collect_cons (m : string) (models : list string) d :
    coll (m :: models) d
    = coll models (match out m with
                   | Ok (Some preds, tests, rmses) => dict_set m (Some preds, tests, rmses) d
                   | _ => d
                   end).
  Proof. reflexivity. Qed.

Lemma step_available (m : string) (d : list (string * loaded (V:=V))) :
    avail m = true ->
    exists v, out m = Ok v /\ fst (fst v) <> None /\ coll [m] d = dict_set m v d.
  Proof.
    unfold available, collect. simpl.
    destruct (out m) as [[[[p|] t] r]|]; try discriminate.
    intros _. eexists. repeat split. discriminate.
  Qed.

Lemma step_unavailable (m : string) (d : list (string * loaded (V:=V))) :
    avail m = false -> coll [m] d = d.
  Proof.
    unfold available, collect. simpl.
    destruct (out m) as [[[[p|] t] r]|]; try discriminate; reflexivity.
  Qed.

Lemma collect_step (m : string) (models : list string) d :
    coll (m :: models) d = coll models (coll [m] d).
  Proof. reflexivity. Qed.

  (** The loop runs to its end when no load faults, and builds [collect]. *)
Lemma collect_models_run (models : list string) :
    forall (w : world V) d,
      files w = files w0 ->
      (forall m, In m models -> exists r, out m = Ok r) ->
      exists w',
        collect_models cfg rmse freq model coin time_frame models d w
        = (Ok (coll models d), w') /\ files w' = files w0.
  Proof.
    induction models as [|m models IH]; intros w d Hw Hall.
    - exists w. now split.
    - simpl collect_models. unfold_monad. rewrite call_by_model_name.
      destruct (get_predictions_files cfg rmse freq model m coin time_frame true w w0 Hw)
        as [Hr Hf].
      destruct (Hall m (or_introl eq_refl)) as [r Hm].
      rewrite collect_cons, Hm. unfold outcome in Hm. rewrite Hm in Hr.
      destruct (get_predictions cfg rmse freq model m coin time_frame true w) as [r1 w1].
      simpl in Hr, Hf. subst r1. destruct r as [[preds tests] rmses].
      destruct (IH w1 (match preds with
                       | Some _ => dict_set m (preds, tests, rmses) d
                       | None => d
                       end)) as (w' & Hrun & Hw');
        [congruence|intros; apply Hall; now right|].
      exists w'. split; [|exact Hw'].
      rewrite Hrun. destruct preds; reflexivity.
  Qed.

Lemma collect_keys_In (models : list string) :
    forall d name,
      In name (map fst (coll models d))
      <-> In name (map fst d) \/ (In name models /\ avail name = true).
  Proof.
    induction models as [|m models IH]; intros d name.
    - simpl. tauto.
    - rewrite collect_step, IH.
      destruct (avail m) eqn:E.
      + destruct (step_available m d E) as (v & _ & _ & ->).
        rewrite dict_set_keys. simpl.
        destruct (str_in m (map fst d)) eqn:Em.
        * apply str_in_In in Em. split.
          -- intros [H|[H1 H2]]; auto.
          -- intros [H|[[<-|H1] H2]]; auto.
        * rewrite in_app_iff. simpl. split.
          -- intros [[H|[<-|[]]]|[H1 H2]]; auto.
          -- intros [H|[[<-|H1] H2]]; auto.
      + rewrite (step_unavailable m d E). simpl. split.
        * intros [H|[H1 H2]]; auto.
        * intros [H|[[<-|H1] H2]]; auto. congruence.
  Qed.



Lemma collect_values (models : list string) :
    forall d,
      (forall kv, In kv d -> out (fst kv) = Ok (snd kv) /\ fst (fst (snd kv)) <> None) ->
      forall kv, In kv (coll models d) ->
                 out (fst kv) = Ok (snd kv) /\ fst (fst (snd kv)) <> None.
  Proof.
    induction models as [|m models IH]; intros d Hd kv Hkv; [now apply Hd|].
    rewrite collect_step in Hkv. apply IH in Hkv; [assumption|].
    clear kv Hkv. intros kv Hkv. destruct (avail m) eqn:E.
    - destruct (step_available m d E) as (v & Hv & Hsome & Hstep).
      rewrite Hstep in Hkv. apply dict_set_In in Hkv.
      destruct Hkv as [->|Hkv]; [now split|now apply Hd].
    - rewrite (step_unavailable m d E) in Hkv. now apply Hd.
  Qed.
End CollectFacts.

Section AggregatorFacts.
Context {V : Type}.
Variable cfg : config.
Variable rmse : TimeSeries V -> TimeSeries V -> result V.
Variable freq : TimeSeries V -> Z.
Variables model coin time_frame : string.

  (** A load that succeeded carries five metric values. *)
Lemma outcome_rmses (w : world V) (model_name : string) v :
    outcome cfg rmse freq model coin time_frame w model_name = Ok v ->
    fst (fst v) <> None ->
    exists l, snd v = Some l /\ length l = 5%nat.
  Proof.
    unfold outcome.
    destruct (get_predictions cfg rmse freq model model_name coin time_frame true w)
      as [r w'] eqn:E.
    simpl. intros -> Hsome. apply get_predictions_inv in E.
    destruct E as [[-> _]|(_ & folds & HF & Hr & _)]; [now contradiction Hsome|].
    exists (map fold_rmse folds). split; [exact Hr|].
    rewrite length_map. symmetry. apply (Forall2_length _ _ _ HF).
  Qed.

End AggregatorFacts.


(** Ten models in the catalog, three of them without artifacts: a
    dictionary of seven models and a table of seven columns. *)
Example seven_of_ten :
  length (all_models Sample.cfg) = 10%nat /\
  match fst (all_model_predictions Sample.cfg Sample.rmse Sample.freq
               "log_returns" "BTC" "1d" Sample.seven) with
  | Ok (dict, table) =>
      map fst dict = ["ARIMA"; "TBATS"; "RNN"; "LSTM"; "GRU"; "TCN"; "NBEATS"]
      /\ length dict = 7%nat
      /\ map fst table = map fst dict
      /\ length table = 7%nat
  | Raise _ => False
  end.
Proof. split; [reflexivity|]. vm_compute. repeat split; reflexivity. Qed.


(** ** Unsupported conversions *)

Section ConversionFacts.
Context {V : Type}.
Variable cfg : config.
Variable fmul : V -> V -> V.
Variable fexp : V -> V.
Variable read_csv : string -> string -> result (table V).

  (** The three families that have a price-valued target. *)
Lemma transformed_model_of_supported :
    transformed_model_of cfg (log_returns_model cfg) = Some (log_to_raw_model cfg)
    /\ (extended_model cfg <> log_returns_model cfg ->
        transformed_model_of cfg (extended_model cfg) = Some (extended_to_raw_model cfg))
    /\ (scaled_to_log_model cfg <> log_returns_model cfg ->
        scaled_to_log_model cfg <> extended_model cfg ->
        transformed_model_of cfg (scaled_to_log_model cfg)
        = Some (scaled_to_raw_model cfg)).
  Proof.
    unfold transformed_model_of. repeat split.
    - now rewrite String.eqb_refl.
    - intros H. apply String.eqb_neq in H. now rewrite H, String.eqb_refl.
    - intros H1 H2. apply String.eqb_neq in H1, H2.
      now rewrite H1, H2, String.eqb_refl.
  Qed.

  (** Past the first statement, any other family is reported on the
      console and nothing else happens. *)
Lemma convert_predictions_unsupported (preds : option (shaped V))
        (model forecasting_model coin time_frame : string) (w : world V) :
    model <> log_returns_model cfg ->
    model <> extended_model cfg ->
    model <> scaled_to_log_model cfg ->
    convert_predictions cfg fmul fexp read_csv preds model forecasting_model
      coin time_frame w
    = (Ok tt, World (files w)
                (trace w ++ [EPrint "This model cannot be converted to price."])).
  Proof.
    intros H1 H2 H3. apply String.eqb_neq in H1, H2, H3.
    unfold convert_predictions, transformed_model_of. now rewrite H1, H2, H3.
  Qed.
End ConversionFacts.

(** C3 (the code at a failing input): converting from the raw family is
    not reported and skipped.  The call into [get_predictions] raises
    [TypeError] first, with nothing printed; the branch that would print
    the report and return is the one the call never reaches. *)
Theorem unsupported_conversion_raises :
  transformed_model_of Sample.cfg "raw" = None
  /\ log_returns_to_price Sample.cfg Sample.rmse Sample.freq Rmult exp Sample.read_csv
       "raw" "ARIMA" "BTC" "1d" Sample.empty
     = (Raise TypeError, Sample.empty)
  /\ forall preds,
       convert_predictions Sample.cfg Rmult exp Sample.read_csv preds
         "raw" "ARIMA" "BTC" "1d" Sample.empty
       = (Ok tt, World ∅ [EPrint "This model cannot be converted to price."]).
Proof.
  split; [reflexivity|]. split; [reflexivity|]. intros preds. reflexivity.
Qed.

(** * Further properties of the loader *)

Section LoaderWorld.
Context {V : Type}.
Variable cfg : config.
Variable rmse : TimeSeries V -> TimeSeries V -> result V.
Variable freq : TimeSeries V -> Z.
Variables model model_name coin time_frame : string.

Local Abbreviation loc :=
    (file_loc (model_output_dir cfg) model model_name coin time_frame).
Local Abbreviation body :=
    (load_period cfg rmse model model_name coin time_frame (value_cols_of cfg model)).
Local Abbreviation loop :=
    (load_periods cfg rmse model model_name coin time_frame (value_cols_of cfg model)).
Local Abbreviation loads := (fold_loads cfg rmse model model_name coin time_frame).
Local Abbreviation warn := (warned (V:=V) cfg model model_name coin time_frame).
Local Abbreviation get := (get_predictions cfg rmse freq model model_name coin time_frame).

  (** The loop leaves the world as it was, or one warning longer when it
      ends early. *)
Lemma load_periods_world (periods : list nat) :
    forall (w : world V) preds tests rmses,
      snd (loop periods preds tests rmses w) = w
      \/ (fst (loop periods preds tests rmses w) = Ok None
          /\ exists k, In k periods /\ snd (loop periods preds tests rmses w) = warn w k).
Proof.
    induction periods as [|period periods IH]; intros w preds tests rmses.
    - now left.
    - simpl. unfold_monad.
      destruct (load_period_cases cfg rmse model model_name coin time_frame w period)
        as [[_ E]|[([[pred test] e] & _ & E)|(_ & e & E)]]; rewrite E.
      + right. split; [reflexivity|]. exists period. split; [now left|reflexivity].
      + destruct (IH w (preds ++ [pred]) (tests ++ [test]) (rmses ++ [e]))
          as [H|(H & k & Hk & Hw)]; [now left|].
        right. split; [exact H|]. exists k. split; [now right|exact Hw].
      + now left.
Qed.

Lemma load_periods_raise (w : world V) (done : list nat) (period : nat)
        (rest : list nat) folds (e : exn) :
    Forall2 (loads w) done folds ->
    body period w = (Raise e, w) ->
    forall preds tests rmses,
      loop (done ++ period :: rest) preds tests rmses w = (Raise e, w).
Proof.
    induction 1 as [|p [[pred test] e'] done folds Hf _ IH]; intros Hp preds tests rmses.
    - simpl. unfold_monad. now rewrite Hp.
    - simpl. unfold_monad.
      rewrite (load_period_ok cfg rmse model model_name coin time_frame w p _ Hf).
      now apply IH.
Qed.

Lemma get_predictions_world (concatenated : bool) (w : world V) :
    snd (get concatenated w) = w
    \/ (fst (get concatenated w) = Ok (None, None, None)
        /\ exists k, (k < 5)%nat /\ snd (get concatenated w) = warn w k).
Proof.
    rewrite get_predictions_eq.
    destruct (load_periods_world (seq 0 5) w [] [] []) as [H|(H & k & Hk & Hw)].
    - left. destruct (loop (seq 0 5) [] [] [] w) as [[[[[preds tests] rmses]|]|e] w'];
        simpl in *; try assumption.
      destruct (negb (String.eqb model (extended_model cfg)) && concatenated).
      + destruct (concatenate freq preds); [|assumption].
        destruct (concatenate freq tests); assumption.
      + destruct (py_first tests); assumption.
    - right. assert (k < 5)%nat as Hk5 by (apply in_seq in Hk; lia).
      destruct (loop (seq 0 5) [] [] [] w) as [r w']. simpl in H, Hw. subst r.
      split; [reflexivity|]. exists k. split; [exact Hk5|exact Hw].
Qed.
End LoaderWorld.

(** X1: [get_predictions] only reads the store.  Whatever its arguments
    and however it ends, the files are the same afterwards; and the world
    is unchanged altogether, except when the sentinel is returned, where
    exactly one warning line (for the first missing prediction artifact)
    was printed. *)
Theorem get_predictions_reads_only
    {V : Type} (cfg : config)
    (rmse : TimeSeries V -> TimeSeries V -> result V) (freq : TimeSeries V -> Z)
    (model model_name coin time_frame : string) (concatenated : bool)
    (w : world V) :
  let run := get_predictions cfg rmse freq model model_name coin time_frame concatenated w in
  files (snd run) = files w
  /\ (snd run = w
      \/ (fst run = Ok (None, None, None)
          /\ exists k, (k < 5)%nat
                       /\ snd run = warned cfg model model_name coin time_frame w k)).
Proof.
  intros run. split.
  - apply (get_predictions_files cfg rmse freq model model_name coin time_frame
             concatenated w w eq_refl).
  - apply get_predictions_world.
Qed.

(** X3: for the ML-ensemble family the [concatenated] flag has no effect:
    the call returns the same with [True] and with [False]. *)
Theorem ensemble_ignores_concatenated
    {V : Type} (cfg : config)
    (rmse : TimeSeries V -> TimeSeries V -> result V) (freq : TimeSeries V -> Z)
    (model_name coin time_frame : string) (w : world V) :
  get_predictions cfg rmse freq (extended_model cfg) model_name coin time_frame true w
  = get_predictions cfg rmse freq (extended_model cfg) model_name coin time_frame false w.
Proof.
  rewrite !get_predictions_eq. now rewrite String.eqb_refl.
Qed.

(** X4: a missing test artifact is a fault, not the sentinel.  If the
    folds before fold [k] load, the prediction artifact of fold [k] is
    present and parses, and its test artifact is missing, the call raises
    [FileNotFoundError] (nothing printed, store unchanged). *)
Theorem missing_test_artifact_is_a_fault
    {V : Type} (cfg : config)
    (rmse : TimeSeries V -> TimeSeries V -> result V) (freq : TimeSeries V -> Z)
    (model model_name coin time_frame : string) (concatenated : bool)
    (w : world V) (k : nat) (pdf : table V) (vc : string) (pred : TimeSeries V) :
  (k < 5)%nat ->
  (forall j, (j < k)%nat ->
             exists fold, fold_loads cfg rmse model model_name coin time_frame w j fold) ->
  files w !! pred_file (file_loc (model_output_dir cfg) model model_name
                          coin time_frame) k = Some pdf ->
  value_cols_of cfg model = Some vc ->
  from_dataframe pdf "time" vc = Ok pred ->
  files w !! test_file (file_loc (model_output_dir cfg) model model_name
                          coin time_frame) k = None ->
  get_predictions cfg rmse freq model model_name coin time_frame concatenated w
  = (Raise FileNotFoundError, w).
Proof.
  intros Hk Hbefore Hp Hvc Hfp Ht.
  destruct (Forall2_seq (fold_loads cfg rmse model model_name coin time_frame w) k 0)
    as [folds Hfolds]; [intros j Hj; apply Hbefore; lia|].
  rewrite get_predictions_eq, (seq_split k Hk).
  rewrite (load_periods_raise cfg rmse model model_name coin time_frame
             w (seq 0 k) k _ folds FileNotFoundError Hfolds); [reflexivity|].
  now rewrite load_period_eq, Hp, Hvc, Hfp, Ht.
Qed.

Lemma missing_test_artifact_is_a_fault_witness :
  get_predictions Sample.cfg Sample.rmse Sample.freq
    "log_returns" "ARIMA" "BTC" "1d" true Sample.no_test0
  = (Raise FileNotFoundError, Sample.no_test0).
Proof.
  apply (missing_test_artifact_is_a_fault Sample.cfg Sample.rmse Sample.freq
           "log_returns" "ARIMA" "BTC" "1d" true Sample.no_test0 0%nat
           (Table "time" "log returns" (Sample.fold_rows 0)) "log returns"
           (Sample.fold_rows 0)).
  - lia.
  - intros j Hj. lia.
  - reflexivity.
  - reflexivity.
  - reflexivity.
  - reflexivity.
Defined.

(** X5: a non-concatenated load of five folds that load always succeeds:
    no condition on how the folds lie in time is needed, nothing is
    printed, and the result is the five prediction series in fold order,
    the test series of fold 0 and the five metric values in fold order. *)
Theorem per_fold_load_succeeds
    {V : Type} (cfg : config)
    (rmse : TimeSeries V -> TimeSeries V -> result V) (freq : TimeSeries V -> Z)
    (model model_name coin time_frame : string)
    (w : world V) (folds : list (TimeSeries V * TimeSeries V * V)) :
  folds_load cfg rmse model model_name coin time_frame w folds ->
  exists first rest,
    folds = first :: rest /\
    get_predictions cfg rmse freq model model_name coin time_frame false w
    = (Ok (Some (PerFold (map fold_pred folds)), Some (Series (fold_test first)),
           Some (map fold_rmse folds)), w).
Proof.
  intros HF.
  rewrite (get_predictions_folds cfg rmse freq _ _ _ _ false w folds HF).
  rewrite andb_false_r.
  destruct folds as [|first rest]; [inversion HF|].
  exists first, rest. split; reflexivity.
Qed.

Lemma per_fold_load_succeeds_witness :
  exists first rest,
    map Sample.fold (seq 0 5) = first :: rest /\
    get_predictions Sample.cfg Sample.rmse Sample.freq
      "log_returns" "ARIMA" "BTC" "1d" false Sample.full
    = (Ok (Some (PerFold (map fold_pred (map Sample.fold (seq 0 5)))),
           Some (Series (fold_test first)),
           Some (map fold_rmse (map Sample.fold (seq 0 5)))), Sample.full).
Proof.
  apply (per_fold_load_succeeds Sample.cfg Sample.rmse Sample.freq
           "log_returns" "ARIMA" "BTC" "1d" Sample.full (map Sample.fold (seq 0 5))).
  unfold folds_load. simpl seq. simpl map.
  constructor; [sample_fold_loads 0%nat|].
  constructor; [sample_fold_loads 1%nat|].
  constructor; [sample_fold_loads 2%nat|].
  constructor; [sample_fold_loads 3%nat|].
  constructor; [sample_fold_loads 4%nat|].
  constructor.
Defined.

(** * Further properties of the aggregator *)

Section AggregatorFaults.
Context {V : Type}.
Variable cfg : config.
Variable rmse : TimeSeries V -> TimeSeries V -> result V.
Variable freq : TimeSeries V -> Z.
Variables model coin time_frame : string.
Variable w0 : world V.

Local Abbreviation out := (outcome cfg rmse freq model coin time_frame w0).

  (** The loop stops at the first load that raises. *)
Lemma collect_models_raise (m : string) (rest : list string) (e : exn)
      (done : list string) :
    forall (w : world V) d,
      files w = files w0 ->
      (forall m', In m' done -> exists r, out m' = Ok r) ->
      out m = Raise e ->
      fst (collect_models cfg rmse freq model coin time_frame (done ++ m :: rest) d w)
      = Raise e
      /\ files (snd (collect_models cfg rmse freq model coin time_frame
                       (done ++ m :: rest) d w)) = files w0.
Proof.
    induction done as [|m' done IH]; intros w d Hw Hdone Hm.
    - simpl app. simpl collect_models. unfold_monad. rewrite call_by_model_name.
      destruct (get_predictions_files cfg rmse freq model m coin time_frame true w w0 Hw)
        as [Hr Hf].
      unfold outcome in Hm. rewrite Hm in Hr.
      destruct (get_predictions cfg rmse freq model m coin time_frame true w) as [r1 w1].
      simpl in Hr, Hf. subst r1. simpl. split; [reflexivity|congruence].
    - simpl app. simpl collect_models. unfold_monad. rewrite call_by_model_name.
      destruct (get_predictions_files cfg rmse freq model m' coin time_frame true w w0 Hw)
        as [Hr Hf].
      destruct (Hdone m' (or_introl eq_refl)) as [r Hm'].
      unfold outcome in Hm'. rewrite Hm' in Hr.
      destruct (get_predictions cfg rmse freq model m' coin time_frame true w) as [r1 w1].
      simpl in Hr, Hf. subst r1. destruct r as [[preds tests] rmses].
      apply IH; [congruence|intros; apply Hdone; now right|exact Hm].
Qed.

  (** The frame built from lists of one length, column by column. *)
Lemma DataFrame_lists (n : nat) (d : list (string * option (list V))) :
    Forall (fun kv => exists l, snd kv = Some l /\ length l = n) d ->
    exists df,
      DataFrame d = Ok df /\
      Forall2 (fun kv col => fst col = fst kv /\
                 exists l, snd kv = Some l /\ length l = n /\ snd col = map Some l) d df.
Proof.
    intros H. destruct (DataFrame_columns n d H) as (df & Hdf & _).
    exists df. split; [exact Hdf|].
    assert (forall n0 (cols : list (string * option (list V))),
               Forall (fun kv => exists l, snd kv = Some l /\ length l = n) cols ->
               Forall2 (fun kv col => fst col = fst kv /\
                          exists l, snd kv = Some l /\ length l = n /\
                                    snd col = map Some l)
                 cols
                 (map (fun kv => (fst kv,
                                  match snd kv with
                                  | Some l => map Some l
                                  | None => repeat None n0
                                  end)) cols)) as Hgen.
    { intros n0 cols Hcols.
      induction Hcols as [|kv' cols' (l & Hl & Hn) _ IH]; simpl; constructor;
        [|exact IH].
      simpl. split; [reflexivity|]. exists l. rewrite Hl. auto. }
    unfold DataFrame in Hdf. destruct d as [|kv d]; [inversion Hdf; constructor|].
    destruct (column_lengths (kv :: d)) as [|n0 ns]; [discriminate|].
    destruct (forallb (Nat.eqb n0) ns); [|discriminate].
    inversion Hdf; subst df; clear Hdf.
    apply (Hgen n0 (kv :: d) H).
Qed.
End AggregatorFaults.

(** X6: a load that raises ends [all_model_predictions].  If the models
    before [m] in the applicable catalog load or are skipped and the load
    of [m] raises [e], the whole call raises [e]: no dictionary and no
    table are returned, the models after [m] are not tried.  The files of
    the store are unchanged. *)
Theorem all_model_predictions_propagates
    {V : Type} (cfg : config)
    (rmse : TimeSeries V -> TimeSeries V -> result V) (freq : TimeSeries V -> Z)
    (model coin time_frame : string) (w : world V)
    (done : list string) (m : string) (rest : list string) (e : exn) :
  applicable_catalog cfg model = done ++ m :: rest ->
  (forall m', In m' done ->
              exists r, outcome cfg rmse freq model coin time_frame w m' = Ok r) ->
  outcome cfg rmse freq model coin time_frame w m = Raise e ->
  fst (all_model_predictions cfg rmse freq model coin time_frame w) = Raise e
  /\ files (snd (all_model_predictions cfg rmse freq model coin time_frame w)) = files w.
Proof.
  intros Hcat Hdone Hm.
  destruct (collect_models_raise cfg rmse freq model coin time_frame w m rest e done
              w [] eq_refl Hdone Hm) as [Hr Hf].
  unfold all_model_predictions. unfold_monad.
  fold (applicable_catalog cfg model). rewrite Hcat.
  destruct (collect_models cfg rmse freq model coin time_frame (done ++ m :: rest) [] w)
    as [r w'].
  simpl in Hr, Hf. subst r. now split.
Qed.

Lemma all_model_predictions_propagates_witness :
  fst (all_model_predictions Sample.cfg Sample.rmse Sample.freq
         "log_returns" "BTC" "1d" Sample.no_test0) = Raise FileNotFoundError
  /\ files (snd (all_model_predictions Sample.cfg Sample.rmse Sample.freq
                   "log_returns" "BTC" "1d" Sample.no_test0)) = files Sample.no_test0.
Proof.
  apply (all_model_predictions_propagates Sample.cfg Sample.rmse Sample.freq
           "log_returns" "BTC" "1d" Sample.no_test0 [] "ARIMA"
           ["TBATS"; "RNN"; "LSTM"; "GRU"; "TCN"; "NBEATS"; "TFT"; "XGB"; "LightGBM"]).
  - reflexivity.
  - intros m' [].
  - vm_compute. reflexivity.
Defined.

(** X7: when no model of the applicable catalog has its first prediction
    artifact, every model is skipped and [all_model_predictions] returns
    an empty dictionary and an empty table, without a fault. *)
Theorem no_artifacts_empty_summary
    {V : Type} (cfg : config)
    (rmse : TimeSeries V -> TimeSeries V -> result V) (freq : TimeSeries V -> Z)
    (model coin time_frame : string) (w : world V) :
  (forall m, In m (applicable_catalog cfg model) ->
             files w !! pred_file (file_loc (model_output_dir cfg) model m
                                     coin time_frame) 0 = None) ->
  fst (all_model_predictions cfg rmse freq model coin time_frame w) = Ok ([], []).
Proof.
  intros Hnone.
  assert (forall m, In m (applicable_catalog cfg model) ->
                    outcome cfg rmse freq model coin time_frame w m
                    = Ok (None, None, None)) as Hout.
  { intros m Hm. unfold outcome.
    rewrite (get_predictions_missing cfg rmse freq model m coin time_frame true w 0);
      [reflexivity|lia|intros j Hj; lia|now apply Hnone]. }
  destruct (collect_models_run cfg rmse freq model coin time_frame w
              (applicable_catalog cfg model) w [] eq_refl) as (w' & Hrun & _).
  { intros m Hm. rewrite (Hout m Hm). eauto. }
  assert (collect cfg rmse freq model coin time_frame w
            (applicable_catalog cfg model) [] = []) as Hempty.
  { destruct (collect cfg rmse freq model coin time_frame w
                (applicable_catalog cfg model) []) as [|[name v] d] eqn:E;
      [reflexivity|exfalso].
    assert (In name (map fst (collect cfg rmse freq model coin time_frame w
                                (applicable_catalog cfg model) []))) as Hin
        by (rewrite E; now left).
    apply collect_keys_In in Hin. destruct Hin as [[]|[Hm Hav]].
    unfold available in Hav. now rewrite (Hout name Hm) in Hav. }
  unfold all_model_predictions. unfold_monad.
  fold (applicable_catalog cfg model). rewrite Hrun, Hempty. reflexivity.
Qed.

Lemma no_artifacts_empty_summary_witness :
  fst (all_model_predictions Sample.cfg Sample.rmse Sample.freq
         "log_returns" "BTC" "1d" Sample.empty) = Ok ([], []).
Proof.
  apply (no_artifacts_empty_summary Sample.cfg Sample.rmse Sample.freq
           "log_returns" "BTC" "1d" Sample.empty).
  intros m Hm. reflexivity.
Defined.

(** X8: the summary table holds, for each model of the dictionary and in
    the same order, one column under the model's name with the model's
    five per-fold metric values (rows are folds); no aggregate is
    computed. *)
Theorem summary_table_columns
    {V : Type} (cfg : config)
    (rmse : TimeSeries V -> TimeSeries V -> result V) (freq : TimeSeries V -> Z)
    (model coin time_frame : string) (w : world V) :
  (forall m, In m (applicable_catalog cfg model) ->
             exists r, outcome cfg rmse freq model coin time_frame w m = Ok r) ->
  exists dict table w',
    all_model_predictions cfg rmse freq model coin time_frame w = (Ok (dict, table), w')
    /\ Forall2 (fun entry col =>
                  fst col = fst entry /\
                  exists rmses, snd (snd entry) = Some rmses /\
                                length rmses = 5%nat /\
                                snd col = map Some rmses) dict table.
Proof.
  intros Hall.
  destruct (collect_models_run cfg rmse freq model coin time_frame w
              (applicable_catalog cfg model) w [] eq_refl Hall) as (w' & Hrun & _).
  set (dict := collect cfg rmse freq model coin time_frame w
                 (applicable_catalog cfg model) []) in *.
  assert (forall kv, In kv dict ->
                     outcome cfg rmse freq model coin time_frame w (fst kv) = Ok (snd kv)
                     /\ fst (fst (snd kv)) <> None) as Hvalues.
  { unfold dict. apply collect_values. intros kv []. }
  destruct (DataFrame_lists 5 (map (fun kv => (fst kv, snd (snd kv))) dict))
    as (table & Htable & Hcols).
  { apply List.Forall_forall. intros kc Hkc. apply in_map_iff in Hkc.
    destruct Hkc as (kv & <- & Hkv). destruct (Hvalues kv Hkv) as [Hout Hsome].
    simpl. now apply (outcome_rmses cfg rmse freq model coin time_frame w (fst kv)). }
  exists dict, table, w'. split.
  - unfold all_model_predictions. unfold_monad.
    fold (applicable_catalog cfg model). rewrite Hrun, Htable. reflexivity.
  - clear -Hcols. revert table Hcols.
    induction dict as [|kv dict IH]; intros table H; inversion H; subst;
      constructor; auto.
Qed.

Lemma summary_table_columns_witness :
  exists dict table w',
    all_model_predictions Sample.cfg Sample.rmse Sample.freq
      "log_returns" "BTC" "1d" Sample.seven = (Ok (dict, table), w')
    /\ Forall2 (fun entry col =>
                  fst col = fst entry /\
                  exists rmses, snd (snd entry) = Some rmses /\
                                length rmses = 5%nat /\
                                snd col = map Some rmses) dict table.
Proof.
  apply (summary_table_columns Sample.cfg Sample.rmse Sample.freq
           "log_returns" "BTC" "1d" Sample.seven).
  intros m Hm. simpl in Hm.
  repeat (destruct Hm as [<-|Hm]; [eexists; vm_compute; reflexivity|]).
  contradiction.
Defined.

(** * Further properties of the conversion of one fold *)

Section CompoundFacts.
Context {V : Type}.
Variable fmul : V -> V -> V.
Variable fexp : V -> V.

  (** The loop only appends: what it was given stays in front. *)
Lemma compound_prefix (vals : list V) :
    forall close cl,
      compound fmul fexp close vals = Ok cl ->
      exists ext, cl = close ++ ext /\ length ext = length vals.
Proof.
    induction vals as [|v vals IH]; intros close cl H; simpl in H.
    - inversion H; subst. exists []. now rewrite app_nil_r.
    - unfold_monad. destruct (py_last close) as [prev|]; [|discriminate].
      apply IH in H. destruct H as (ext & -> & Hlen).
      exists (fmul prev (fexp v) :: ext). rewrite <- app_assoc. simpl. split; auto.
Qed.

Lemma map_snd_combine {A} (xs : list A) (ys : list V) :
    length xs = length ys -> map snd (combine xs ys) = ys.
Proof.
    revert ys. induction xs as [|x xs IH]; intros [|y ys] H; simpl in *;
      try discriminate; [reflexivity|]. f_equal. apply IH. lia.
Qed.

Lemma skipn_nth_error {A} (xs : list A) :
    forall (i : nat) (x : A) (rest : list A),
      skipn i xs = x :: rest -> nth_error xs i = Some x.
Proof.
    induction xs as [|y xs IH]; intros [|i] x rest H; simpl in *;
      try discriminate; [congruence|eauto].
Qed.

Lemma positions_absent (t : time) (idx : list time) :
    ~ In t idx -> forall k, positions t idx k = [].
Proof.
    induction idx as [|t' idx IH]; intros Hnot k; simpl; [reflexivity|].
    destruct (Z.eqb_spec t' t) as [->|_].
    - exfalso. apply Hnot. now left.
    - apply IH. intros H. apply Hnot. now right.
Qed.

Lemma get_loc_absent (t : time) (idx : list time) :
    ~ In t idx -> get_loc idx t = Raise KeyError.
Proof. intros H. unfold get_loc. now rewrite positions_absent. Qed.
End CompoundFacts.

(** X9: seeded with the anchor, the compounding loop never faults,
    whatever the arithmetic: it returns the anchor followed by exactly one
    value per forecast value. *)
Theorem compound_seeded
    {V : Type} (fmul : V -> V -> V) (fexp : V -> V) (anchor : V) (vals : list V) :
  exists rest,
    compound fmul fexp [anchor] vals = Ok (anchor :: rest)
    /\ length rest = length vals.
Proof.
  destruct (compound_total fmul fexp vals [] anchor) as [cl Hcl].
  simpl in Hcl. destruct (compound_prefix fmul fexp vals [anchor] cl Hcl)
    as (ext & -> & Hlen).
  exists ext. split; [exact Hcl|exact Hlen].
Qed.

(** X11: a forecast that starts at the first row of the price history
    has no anchor row and is never converted: [start_pos] is [-1], the
    slice wraps to the end of the history, and the fold faults. *)
Theorem conversion_needs_anchor_row
    {V : Type} (fmul : V -> V -> V) (fexp : V -> V)
    (price_df : table V) (prediction : TimeSeries V) (st : time) :
  start_time prediction = Ok st ->
  get_loc (map fst (rows price_df)) st = Ok 0 ->
  exists e, convert_fold fmul fexp price_df prediction = Raise e.
Proof.
  intros Hst Hloc.
  destruct (convert_fold fmul fexp price_df prediction) as [[close test]|e] eqn:E;
    [exfalso|now exists e].
  apply convert_fold_inv in E.
  destruct E as (st' & et & s & e & anchor & cl & Hst' & _ & Hs & _ & Hs1 & _).
  rewrite Hst in Hst'. inversion Hst'; subst st'.
  rewrite Hloc in Hs. inversion Hs; subst s. lia.
Qed.

Lemma conversion_needs_anchor_row_witness :
  exists e, convert_fold Rmult exp Sample.prices [(0, 0%R); (1, 0%R)] = Raise e.
Proof.
  apply (conversion_needs_anchor_row Rmult exp Sample.prices [(0, 0%R); (1, 0%R)] 0).
  - reflexivity.
  - reflexivity.
Defined.

(** X12: a forecast whose start time is not a timestamp of the price
    history is a [KeyError]; so is one whose start time is found once but
    whose end time is not in the history.  No other anchor is taken. *)
Theorem forecast_outside_history
    {V : Type} (fmul : V -> V -> V) (fexp : V -> V)
    (price_df : table V) (prediction : TimeSeries V) (st et : time) :
  start_time prediction = Ok st ->
  end_time prediction = Ok et ->
  (~ In st (map fst (rows price_df))
   \/ ((exists s, get_loc (map fst (rows price_df)) st = Ok s)
       /\ ~ In et (map fst (rows price_df)))) ->
  convert_fold fmul fexp price_df prediction = Raise KeyError.
Proof.
  intros Hst Het H. unfold convert_fold, slice_window. unfold_monad.
  rewrite Hst. destruct H as [Hs|[[s Hs] He]].
  - now rewrite (get_loc_absent st _ Hs).
  - now rewrite Hs, Het, (get_loc_absent et _ He).
Qed.

Lemma forecast_outside_history_witness :
  convert_fold Rmult exp Sample.prices [(7, 0%R); (8, 0%R)] = Raise KeyError.
Proof.
  apply (forecast_outside_history Rmult exp Sample.prices [(7, 0%R); (8, 0%R)] 7 8).
  - reflexivity.
  - reflexivity.
  - left. simpl. intros [H|[H|[H|[H|[]]]]]; discriminate H.
Defined.

(** X13: the values of a converted fold.  Each saved frame has one row per
    forecast value; the value column of both is "close" and the time
    column of the reconstruction is "time"; and the reconstructed values
    are the compounding of the forecast's log returns on the anchor, the
    closing price in the row just before the forecast's start row. *)
Theorem converted_fold_values
    {V : Type} (fmul : V -> V -> V) (fexp : V -> V)
    (price_df : table V) (prediction : TimeSeries V) (close test : table V) :
  convert_fold fmul fexp price_df prediction = Ok (close, test) ->
  length (rows close) = length prediction
  /\ length (rows test) = length prediction
  /\ time_col close = "time" /\ value_col close = "close"
  /\ time_col test = time_col price_df /\ value_col test = "close"
  /\ exists st s t anchor,
      start_time prediction = Ok st /\
      get_loc (map fst (rows price_df)) st = Ok s /\
      nth_error (rows price_df) (Z.to_nat (s - 1)) = Some (t, anchor) /\
      compound fmul fexp [anchor] (values prediction)
      = Ok (anchor :: map snd (rows close)).
Proof.
  intros H. apply convert_fold_inv in H.
  destruct H as (st & et & s & e & anchor & cl & Hst & Het & Hs & He & Hs1 & Hse
                 & Hen & Hlen & Hslice & Hanchor & Hcl & Hcl_len & -> & ->).
  destruct (compound_prefix fmul fexp _ _ _ Hcl) as (ext & -> & Hext).
  change ([anchor] ++ ext) with (anchor :: ext) in *.
  assert (length (rows_between (rows price_df) (s - 1) e) = S (length prediction))
    as Hrb by (rewrite rows_between_length by lia; lia).
  assert (length (rows_between (rows price_df) s e) = length prediction)
    as Hrb' by (rewrite rows_between_length by lia; lia).
  simpl rows. simpl time_col. simpl value_col.
  assert (map snd (skipn 1 (combine (map fst (rows_between (rows price_df) (s - 1) e))
                              (anchor :: ext))) = ext) as Hvals.
  { rewrite <- skipn_1_map, map_snd_combine; [reflexivity|].
    rewrite length_map, Hrb. simpl. unfold values in Hext.
    rewrite length_map in Hext. lia. }
  repeat split; auto.
  - rewrite <- (length_map snd), Hvals. unfold values in Hext.
    now rewrite length_map in Hext.
  - unfold rows_between in Hanchor.
    destruct (skipn (Z.to_nat (s - 1)) (rows price_df)) as [|[t a] rest] eqn:Hskip.
    + rewrite firstn_nil in Hanchor. discriminate.
    + replace (Z.to_nat (e - (s - 1) + 1)) with (S (Z.to_nat (e - s + 1))) in Hanchor
        by lia.
      simpl in Hanchor. inversion Hanchor; subst a.
      exists st, s, t, anchor. repeat split; auto.
      * apply (skipn_nth_error _ _ _ _ Hskip).
      * now rewrite Hvals.
Qed.

Lemma converted_fold_values_witness :
  length (rows Sample.reconstructed) = length Sample.forecast
  /\ length (rows Sample.ground_truth) = length Sample.forecast
  /\ time_col Sample.reconstructed = "time" /\ value_col Sample.reconstructed = "close"
  /\ time_col Sample.ground_truth = time_col Sample.prices
  /\ value_col Sample.ground_truth = "close"
  /\ exists st s t anchor,
      start_time Sample.forecast = Ok st /\
      get_loc (map fst (rows Sample.prices)) st = Ok s /\
      nth_error (rows Sample.prices) (Z.to_nat (s - 1)) = Some (t, anchor) /\
      compound Rmult exp [anchor] (values Sample.forecast)
      = Ok (anchor :: map snd (rows Sample.reconstructed)).
Proof.
  apply (converted_fold_values Rmult exp Sample.prices Sample.forecast
           Sample.reconstructed Sample.ground_truth).
  reflexivity.
Defined.

(** * Further properties of the saving loop *)

Section SaveOutcomes.
Context {V : Type}.
Variable fmul : V -> V -> V.
Variable fexp : V -> V.
Variable save_loc : string.
Variable price_df : table V.

Local Abbreviation save := (save_folds fmul fexp save_loc price_df).
Local Abbreviation converts :=
    (fun p => exists close test, convert_fold fmul fexp price_df p = Ok (close, test)).

  (** Folds that all convert are all saved, two writes each. *)
Lemma save_folds_ok (preds : list (TimeSeries V)) :
    forall (i : nat) (w : world V),
      Forall converts preds ->
      exists w', save i preds w = (Ok tt, w')
                 /\ trace w' = trace w ++ writes_from save_loc i (length preds).
Proof.
    induction preds as [|p preds IH]; intros i w H.
    - exists w. simpl. now rewrite app_nil_r.
    - inversion H as [|? ? (close & test & Hp) Hrest]; subst.
      rewrite save_folds_cons, Hp.
      destruct (IH (S i) (World (<[test_file save_loc i := test]>
                                   (<[pred_file save_loc i := close]> (files w)))
                                ((trace w ++ [EToCsv (pred_file save_loc i)])
                                 ++ [EToCsv (test_file save_loc i)])) Hrest)
        as (w' & Hrun & Htrace).
      exists w'. split; [exact Hrun|].
      rewrite Htrace. simpl. now rewrite <- !app_assoc.
Qed.

Lemma save_folds_Ok_inv (preds : list (TimeSeries V)) :
    forall (i : nat) (w w' : world V),
      save i preds w = (Ok tt, w') -> Forall converts preds.
Proof.
    induction preds as [|p preds IH]; intros i w w' H; [constructor|].
    rewrite save_folds_cons in H.
    destruct (convert_fold fmul fexp price_df p) as [[close test]|] eqn:E;
      [|discriminate].
    constructor; [now exists close, test|]. eapply IH. exact H.
Qed.

  (** The loop over a list in two parts. *)
Lemma save_folds_app (done rest : list (TimeSeries V)) :
    forall (i : nat) (w : world V),
      save i (done ++ rest) w =
      match save i done w with
      | (Ok _, w1) => save (i + length done) rest w1
      | (Raise e, w1) => (Raise e, w1)
      end.
Proof.
    induction done as [|p done IH]; intros i w.
    - simpl. now rewrite Nat.add_0_r.
    - simpl app. rewrite !save_folds_cons.
      destruct (convert_fold fmul fexp price_df p) as [[close test]|]; [|reflexivity].
      rewrite IH. simpl length. now replace (S i + length done)%nat
                                  with (i + S (length done))%nat by lia.
Qed.

  (** However the loop ends, it touches no path but those of its folds. *)
Lemma save_folds_frame_any (preds : list (TimeSeries V)) :
    forall (i : nat) (w : world V) path,
      (forall j, (i <= j)%nat ->
                 path <> pred_file save_loc j /\ path <> test_file save_loc j) ->
      files (snd (save i preds w)) !! path = files w !! path.
Proof.
    induction preds as [|p preds IH]; intros i w path Hpath; [reflexivity|].
    rewrite save_folds_cons.
    destruct (convert_fold fmul fexp price_df p) as [[close test]|]; [|reflexivity].
    rewrite IH by (intros j Hj; apply Hpath; lia). simpl.
    destruct (Hpath i (Nat.le_refl i)) as [Hp Ht].
    rewrite lookup_insert_ne by congruence.
    now rewrite lookup_insert_ne by congruence.
Qed.
End SaveOutcomes.

(** X14: no rollback.  When the folds before a fold convert and that fold
    faults with [e], the loop raises [e] and the frames of the earlier
    folds are already in the store, under [pred_j.csv] and [test_j.csv]. *)
Theorem failed_fold_keeps_earlier_output
    {V : Type} (fmul : V -> V -> V) (fexp : V -> V)
    (save_loc : string) (price_df : table V) (i : nat) (w : world V)
    (done : list (TimeSeries V)) (bad : TimeSeries V) (rest : list (TimeSeries V))
    (e : exn) :
  Forall (fun p => exists close test,
              convert_fold fmul fexp price_df p = Ok (close, test)) done ->
  convert_fold fmul fexp price_df bad = Raise e ->
  exists w',
    save_folds fmul fexp save_loc price_df i (done ++ bad :: rest) w = (Raise e, w')
    /\ trace w' = trace w ++ writes_from save_loc i (length done)
    /\ forall j p,
         nth_error done j = Some p ->
         exists close test,
           convert_fold fmul fexp price_df p = Ok (close, test) /\
           files w' !! pred_file save_loc (i + j) = Some close /\
           files w' !! test_file save_loc (i + j) = Some test.
Proof.
  intros Hdone Hbad.
  destruct (save_folds_ok fmul fexp save_loc price_df done i w Hdone)
    as (w1 & Hrun & Htrace).
  exists w1. rewrite save_folds_app, Hrun, save_folds_cons, Hbad.
  split; [reflexivity|]. split; [exact Htrace|].
  intros j p Hj.
  apply (save_folds_saved fmul fexp save_loc price_df done i w w1 Hrun j p Hj).
Qed.

Lemma failed_fold_keeps_earlier_output_witness :
  exists w',
    save_folds Rmult exp "out" Sample.prices 0
      ([Sample.forecast] ++ [(7, 0%R)] :: []) Sample.empty = (Raise KeyError, w')
    /\ trace w' = trace Sample.empty ++ writes_from "out" 0 (length [Sample.forecast])
    /\ forall j p,
         nth_error [Sample.forecast] j = Some p ->
         exists close test,
           convert_fold Rmult exp Sample.prices p = Ok (close, test) /\
           files w' !! pred_file "out" (0 + j) = Some close /\
           files w' !! test_file "out" (0 + j) = Some test.
Proof.
  apply (failed_fold_keeps_earlier_output Rmult exp "out" Sample.prices 0
           Sample.empty [Sample.forecast] [(7, 0%R)] [] KeyError).
  - constructor; [|constructor].
    exists Sample.reconstructed, Sample.ground_truth. reflexivity.
  - reflexivity.
Defined.

(** X15: the loop writes nowhere else.  However it ends, a path that is
    not [pred_j.csv] or [test_j.csv] of the target directory, for a fold
    index [j] from the first one on, holds what it held before. *)
Theorem save_folds_writes_only_fold_files
    {V : Type} (fmul : V -> V -> V) (fexp : V -> V)
    (save_loc : string) (price_df : table V) (i : nat)
    (preds : list (TimeSeries V)) (w : world V) (path : string) :
  (forall j, (i <= j)%nat ->
             path <> pred_file save_loc j /\ path <> test_file save_loc j) ->
  files (snd (save_folds fmul fexp save_loc price_df i preds w)) !! path
  = files w !! path.
Proof. apply save_folds_frame_any. Qed.

Lemma save_folds_writes_only_fold_files_witness :
  files (snd (save_folds Rmult exp "out" Sample.prices 0 [Sample.forecast] Sample.full))
    !! pred_file (Sample.loc "log_returns" "ARIMA") 0
  = files Sample.full !! pred_file (Sample.loc "log_returns" "ARIMA") 0.
Proof.
  apply (save_folds_writes_only_fold_files Rmult exp "out" Sample.prices 0
           [Sample.forecast] Sample.full
           (pred_file (Sample.loc "log_returns" "ARIMA") 0)).
  intros j Hj. split; intros H;
    apply (f_equal (fun s => String.get 3 s)) in H; vm_compute in H; discriminate H.
Defined.

(** X16: a completed loop wrote exactly two files per fold, the prediction
    frame before the test frame, in fold order, and converted every fold. *)
Theorem save_folds_writes_in_order
    {V : Type} (fmul : V -> V -> V) (fexp : V -> V)
    (save_loc : string) (price_df : table V) (i : nat)
    (preds : list (TimeSeries V)) (w w' : world V) :
  save_folds fmul fexp save_loc price_df i preds w = (Ok tt, w') ->
  trace w' = trace w ++ writes_from save_loc i (length preds)
  /\ Forall (fun p => exists close test,
                convert_fold fmul fexp price_df p = Ok (close, test)) preds.
Proof.
  intros H.
  pose proof (save_folds_Ok_inv fmul fexp save_loc price_df preds i w w' H) as Hall.
  destruct (save_folds_ok fmul fexp save_loc price_df preds i w Hall)
    as (w1 & Hrun & Htrace).
  rewrite H in Hrun. inversion Hrun; subst w1. now split.
Qed.

Lemma save_folds_writes_in_order_witness :
  trace (snd (save_folds Rmult exp "out" Sample.prices 0 [Sample.forecast] Sample.empty))
  = trace Sample.empty ++ writes_from "out" 0 (length [Sample.forecast])
  /\ Forall (fun p => exists close test,
                convert_fold Rmult exp Sample.prices p = Ok (close, test))
       [Sample.forecast].
Proof.
  apply (save_folds_writes_in_order Rmult exp "out" Sample.prices 0 [Sample.forecast]
           Sample.empty _).
  reflexivity.
Defined.

(** X17: the artifact paths of one directory never collide: prediction
    files of different folds differ, test files of different folds differ,
    and no prediction file is a test file. *)
Theorem fold_files_distinct (loc : string) (i j : nat) :
  (pred_file loc i = pred_file loc j -> i = j)
  /\ (test_file loc i = test_file loc j -> i = j)
  /\ pred_file loc i <> test_file loc j.
Proof.
  split; [apply pred_file_inj|]. split; [apply test_file_inj|].
  apply pred_file_not_test_file.
Qed.

(** * The rest of [log_returns_to_price], and the bulk driver *)

Section AfterTheCall.
Context {V : Type}.
Variable cfg : config.
Variable rmse : TimeSeries V -> TimeSeries V -> result V.
Variable freq : TimeSeries V -> Z.
Variable fmul : V -> V -> V.
Variable fexp : V -> V.
Variable read_csv : string -> string -> result (table V).

Lemma first_statement_raises (model forecasting_model coin time_frame : string)
      (w : world V) :
    log_returns_to_price cfg rmse freq fmul fexp read_csv
      model forecasting_model coin time_frame w = (Raise TypeError, w).
Proof.
    unfold log_returns_to_price. unfold_monad.
    change (call_get_predictions cfg rmse freq _ w) with
      (call_get_predictions cfg rmse freq
         [("model", AStr model); ("forecasting_model", AStr forecasting_model);
          ("coin", AStr coin); ("time_frame", AStr time_frame);
          ("concatenated", ABool false)] w).
    now rewrite call_by_forecasting_model.
Qed.

Lemma for_each_cons {A} (body : A -> M V unit) (x : A) (xs : list A) (w : world V) :
    for_each (x :: xs) body w =
    match body x w with
    | (Ok _, w1) => for_each xs body w1
    | (Raise e, w1) => (Raise e, w1)
    end.
Proof. simpl. unfold_monad. destruct (body x w) as [[[]|e] w1]; reflexivity. Qed.

Lemma print_then {A} (line : string) (k : M V A) (w : world V) :
    (print line;; k) w = k (World (files w) (trace w ++ [EPrint line])).
Proof. reflexivity. Qed.

  (** A loop whose body keeps the files keeps the files. *)
Lemma for_each_files {A} (body : A -> M V unit) (xs : list A) :
    (forall x w, files (snd (body x w)) = files w) ->
    forall w, files (snd (for_each xs body w)) = files w.
Proof.
    intros Hbody. induction xs as [|x xs IH]; intros w; [reflexivity|].
    simpl. unfold_monad. specialize (Hbody x w).
    destruct (body x w) as [[[]|e] w1]; simpl in *; [|exact Hbody].
    rewrite IH. exact Hbody.
Qed.

  (** A loop over nothing to convert only prints. *)
Lemma for_each_coins_no_timeframes (model forecasting_model : string)
      (coins : list string) :
    forall w,
      for_each coins
        (fun coin =>
           print (converting_line forecasting_model coin);;
           for_each [] (fun time_frame =>
             log_returns_to_price cfg rmse freq fmul fexp read_csv
               model forecasting_model coin time_frame)) w
      = (Ok tt, World (files w)
                  (trace w ++ map (fun coin => EPrint (converting_line forecasting_model coin))
                                coins)).
Proof.
    induction coins as [|coin coins IH]; intros w.
    - simpl. rewrite app_nil_r. now destruct w.
    - simpl. unfold_monad. unfold print, emit. simpl.
      rewrite IH. simpl. now rewrite <- app_assoc.
Qed.
End AfterTheCall.

(** X18: the bulk driver on a family that is neither the ML-ensemble, the
    log-return nor the scaled-to-log family finds [models] unbound: it
    raises [UnboundLocalError] before anything is printed or converted. *)
Theorem driver_unbound_models
    {V : Type} (cfg : config)
    (rmse : TimeSeries V -> TimeSeries V -> result V) (freq : TimeSeries V -> Z)
    (fmul : V -> V -> V) (fexp : V -> V)
    (read_csv : string -> string -> result (table V))
    (model : string) (w : world V) :
  model <> extended_model cfg ->
  model <> log_returns_model cfg ->
  model <> scaled_to_log_model cfg ->
  all_log_returns_to_price cfg rmse freq fmul fexp read_csv model w
  = (Raise UnboundLocalError, w).
Proof.
  intros H1 H2 H3. apply String.eqb_neq in H1, H2, H3.
  unfold all_log_returns_to_price, driver_models, str_in. simpl.
  now rewrite H1, H2, H3.
Qed.

Lemma driver_unbound_models_witness :
  all_log_returns_to_price Sample.cfg Sample.rmse Sample.freq Rmult exp Sample.read_csv
    "raw" Sample.full
  = (Raise UnboundLocalError, Sample.full).
Proof.
  apply (driver_unbound_models Sample.cfg Sample.rmse Sample.freq Rmult exp
           Sample.read_csv "raw" Sample.full); discriminate.
Defined.

(** X19: with a model, a coin and a time frame to work on, the bulk
    driver prints the line of the first model and coin and then stops: the
    first conversion raises [TypeError], which ends all three loops.  No
    other pair is announced and nothing is converted. *)
Theorem driver_stops_at_first_conversion
    {V : Type} (cfg : config)
    (rmse : TimeSeries V -> TimeSeries V -> result V) (freq : TimeSeries V -> Z)
    (fmul : V -> V -> V) (fexp : V -> V)
    (read_csv : string -> string -> result (table V))
    (model : string) (w : world V)
    (forecasting_model : string) (models : list string)
    (coin : string) (coins : list string)
    (time_frame : string) (time_frames : list string) :
  driver_models cfg model = Some (forecasting_model :: models) ->
  all_coins cfg = coin :: coins ->
  timeframes cfg = time_frame :: time_frames ->
  all_log_returns_to_price cfg rmse freq fmul fexp read_csv model w
  = (Raise TypeError,
     World (files w) (trace w ++ [EPrint (converting_line forecasting_model coin)])).
Proof.
  intros Hm Hc Ht. unfold all_log_returns_to_price.
  rewrite Hm, Hc, Ht.
  change (mret (forecasting_model :: models) ≫= ?k)
    with (k (forecasting_model :: models)). cbv beta.
  rewrite for_each_cons, for_each_cons, print_then, for_each_cons.
  now rewrite first_statement_raises.
Qed.

Lemma driver_stops_at_first_conversion_witness :
  all_log_returns_to_price Sample.cfg Sample.rmse Sample.freq Rmult exp Sample.read_csv
    "log_returns" Sample.full
  = (Raise TypeError,
     World (files Sample.full)
       (trace Sample.full ++ [EPrint (converting_line "ARIMA" "BTC")])).
Proof.
  apply (driver_stops_at_first_conversion Sample.cfg Sample.rmse Sample.freq Rmult exp
           Sample.read_csv "log_returns" Sample.full
           "ARIMA" ["TBATS"; "RNN"; "LSTM"; "GRU"; "TCN"; "NBEATS"; "TFT"; "XGB"; "LightGBM"]
           "BTC" ["ETH"] "1d" []); reflexivity.
Defined.

(** X20: the bulk driver never changes a file of the store, whatever the
    family and the configuration, and however it ends. *)
Theorem driver_keeps_files
    {V : Type} (cfg : config)
    (rmse : TimeSeries V -> TimeSeries V -> result V) (freq : TimeSeries V -> Z)
    (fmul : V -> V -> V) (fexp : V -> V)
    (read_csv : string -> string -> result (table V))
    (model : string) (w : world V) :
  files (snd (all_log_returns_to_price cfg rmse freq fmul fexp read_csv model w))
  = files w.
Proof.
  unfold all_log_returns_to_price. unfold_monad.
  destruct (driver_models cfg model) as [models|]; [|reflexivity].
  apply for_each_files. intros forecasting_model w1.
  apply for_each_files. intros coin w2.
  unfold_monad. unfold print, emit. simpl.
  rewrite for_each_files; [reflexivity|].
  intros time_frame w3. now rewrite first_statement_raises.
Qed.

(** X21: with no time frame configured the bulk driver has nothing to
    convert: it returns normally, having printed one line per model and
    coin, models in catalog order and coins in order within each model. *)
Theorem driver_without_timeframes
    {V : Type} (cfg : config)
    (rmse : TimeSeries V -> TimeSeries V -> result V) (freq : TimeSeries V -> Z)
    (fmul : V -> V -> V) (fexp : V -> V)
    (read_csv : string -> string -> result (table V))
    (model : string) (models : list string) (w : world V) :
  driver_models cfg model = Some models ->
  timeframes cfg = [] ->
  all_log_returns_to_price cfg rmse freq fmul fexp read_csv model w
  = (Ok tt,
     World (files w)
       (trace w ++ flat_map (fun forecasting_model =>
                               map (fun coin => EPrint (converting_line forecasting_model coin))
                                 (all_coins cfg)) models)).
Proof.
  intros Hm Ht. unfold all_log_returns_to_price. rewrite Hm, Ht.
  change (mret models ≫= ?k) with (k models). cbv beta.
  clear Hm. revert w. induction models as [|m models IH]; intros w.
  - simpl. rewrite app_nil_r. now destruct w.
  - rewrite for_each_cons. cbv beta.
    rewrite for_each_coins_no_timeframes, IH. simpl. now rewrite <- app_assoc.
Qed.

Lemma driver_without_timeframes_witness :
  all_log_returns_to_price
    (Config ["BTC"; "ETH"] [] ["ARIMA"] [] "out" "log_returns" "raw" "extended"
       "scaled" "log_to_raw" "scaled_to_raw" "extended_to_raw" "scaled_to_log"
       "raw_to_log")
    Sample.rmse Sample.freq Rmult exp Sample.read_csv "log_returns" Sample.empty
  = (Ok tt,
     World ∅ [EPrint (converting_line "ARIMA" "BTC");
              EPrint (converting_line "ARIMA" "ETH")]).
Proof.
  apply (driver_without_timeframes
           (Config ["BTC"; "ETH"] [] ["ARIMA"] [] "out" "log_returns" "raw" "extended"
              "scaled" "log_to_raw" "scaled_to_raw" "extended_to_raw" "scaled_to_log"
              "raw_to_log")
           Sample.rmse Sample.freq Rmult exp Sample.read_csv "log_returns" ["ARIMA"]
           Sample.empty); reflexivity.
Defined.

Section ConvertPredictions.
Context {V : Type}.
Variable cfg : config.
Variable fmul : V -> V -> V.
Variable fexp : V -> V.
Variable read_csv : string -> string -> result (table V).

  (** The statements between the family mapping and the loop. *)
Lemma convert_predictions_supported (preds : option (shaped V))
      (model forecasting_model coin time_frame target : string)
      (price_df : table V) (w : world V) :
    transformed_model_of cfg model = Some target ->
    read_csv coin time_frame = Ok price_df ->
    convert_predictions cfg fmul fexp read_csv preds model forecasting_model
      coin time_frame w
    = let save_loc := file_loc (model_output_dir cfg) target forecasting_model
                        coin time_frame in
      let w1 := World (files w)
                  ((trace w ++ [EReadPrices coin time_frame]) ++ [EMakedirs save_loc]) in
      match iterate preds with
      | Ok folds => save_folds fmul fexp save_loc price_df 0 folds w1
      | Raise e => (Raise e, w1)
      end.
Proof.
    intros Ht Hr. unfold convert_predictions, read_prices. rewrite Ht.
    unfold_monad. unfold makedirs, emit. cbv beta iota zeta. rewrite Hr.
    cbv beta iota. simpl files. simpl trace.
    destruct (iterate preds); reflexivity.
Qed.
End ConvertPredictions.

(** X22: past its first statement, [log_returns_to_price] on a supported
    family whose predictions are the sentinel ([preds] is [None]) loads
    the price history and creates the target directory, and only then
    faults: iterating over [None] is a [TypeError].  No file is written. *)
Theorem conversion_of_sentinel
    {V : Type} (cfg : config) (fmul : V -> V -> V) (fexp : V -> V)
    (read_csv : string -> string -> result (table V))
    (model forecasting_model coin time_frame target : string)
    (price_df : table V) (w : world V) :
  transformed_model_of cfg model = Some target ->
  read_csv coin time_frame = Ok price_df ->
  convert_predictions cfg fmul fexp read_csv None model forecasting_model
    coin time_frame w
  = (Raise TypeError,
     World (files w)
       (trace w ++ [EReadPrices coin time_frame;
                    EMakedirs (file_loc (model_output_dir cfg) target forecasting_model
                                 coin time_frame)])).
Proof.
  intros Ht Hr.
  rewrite (convert_predictions_supported cfg fmul fexp read_csv None _ _ _ _ target
             price_df w Ht Hr).
  simpl. now rewrite <- app_assoc.
Qed.

Lemma conversion_of_sentinel_witness :
  convert_predictions Sample.cfg Rmult exp Sample.read_csv None
    "log_returns" "ARIMA" "BTC" "1d" Sample.empty
  = (Raise TypeError,
     World (files Sample.empty)
       (trace Sample.empty
        ++ [EReadPrices "BTC" "1d";
            EMakedirs (file_loc (model_output_dir Sample.cfg) "log_to_raw" "ARIMA"
                         "BTC" "1d")])).
Proof.
  apply (conversion_of_sentinel Sample.cfg Rmult exp Sample.read_csv
           "log_returns" "ARIMA" "BTC" "1d" "log_to_raw" Sample.prices Sample.empty);
    reflexivity.
Defined.

(** X23: past its first statement, given per-fold predictions that all
    convert, a supported family and a readable price history,
    [log_returns_to_price] returns normally: it reads the prices once,
    creates the directory of the target family, and saves the two frames
    of every fold there as [pred_j.csv] and [test_j.csv], in fold order. *)
Theorem conversion_saves_every_fold
    {V : Type} (cfg : config) (fmul : V -> V -> V) (fexp : V -> V)
    (read_csv : string -> string -> result (table V))
    (model forecasting_model coin time_frame target : string)
    (price_df : table V) (folds : list (TimeSeries V)) (w : world V) :
  transformed_model_of cfg model = Some target ->
  read_csv coin time_frame = Ok price_df ->
  Forall (fun p => exists close test,
              convert_fold fmul fexp price_df p = Ok (close, test)) folds ->
  let save_loc := file_loc (model_output_dir cfg) target forecasting_model
                    coin time_frame in
  exists w',
    convert_predictions cfg fmul fexp read_csv (Some (PerFold folds)) model
      forecasting_model coin time_frame w = (Ok tt, w')
    /\ trace w' = trace w ++ [EReadPrices coin time_frame; EMakedirs save_loc]
                  ++ writes_from save_loc 0 (length folds)
    /\ forall j p,
         nth_error folds j = Some p ->
         exists close test,
           convert_fold fmul fexp price_df p = Ok (close, test) /\
           files w' !! pred_file save_loc j = Some close /\
           files w' !! test_file save_loc j = Some test.
Proof.
  intros Ht Hr Hall save_loc.
  rewrite (convert_predictions_supported cfg fmul fexp read_csv _ _ _ _ _ target
             price_df w Ht Hr).
  cbv zeta. simpl iterate. cbv iota. fold save_loc.
  destruct (save_folds_ok fmul fexp save_loc price_df folds 0
              (World (files w)
                 ((trace w ++ [EReadPrices coin time_frame]) ++ [EMakedirs save_loc]))
              Hall) as (w' & Hrun & Htrace).
  exists w'. split; [exact Hrun|]. split.
  - rewrite Htrace. simpl. now rewrite <- !app_assoc.
  - intros j p Hj.
    apply (save_folds_saved fmul fexp save_loc price_df folds 0 _ w' Hrun j p Hj).
Qed.

Lemma conversion_saves_every_fold_witness :
  exists w',
    convert_predictions Sample.cfg Rmult exp Sample.read_csv
      (Some (PerFold [Sample.forecast])) "log_returns" "ARIMA" "BTC" "1d" Sample.empty
    = (Ok tt, w')
    /\ trace w'
       = trace Sample.empty
         ++ [EReadPrices "BTC" "1d";
             EMakedirs (file_loc (model_output_dir Sample.cfg) "log_to_raw" "ARIMA"
                          "BTC" "1d")]
         ++ writes_from (file_loc (model_output_dir Sample.cfg) "log_to_raw" "ARIMA"
                           "BTC" "1d") 0 (length [Sample.forecast])
    /\ forall j p,
         nth_error [Sample.forecast] j = Some p ->
         exists close test,
           convert_fold Rmult exp Sample.prices p = Ok (close, test) /\
           files w' !! pred_file (file_loc (model_output_dir Sample.cfg) "log_to_raw"
                                    "ARIMA" "BTC" "1d") j = Some close /\
           files w' !! test_file (file_loc (model_output_dir Sample.cfg) "log_to_raw"
                                    "ARIMA" "BTC" "1d") j = Some test.
Proof.
  apply (conversion_saves_every_fold Sample.cfg Rmult exp Sample.read_csv
           "log_returns" "ARIMA" "BTC" "1d" "log_to_raw" Sample.prices
           [Sample.forecast] Sample.empty).
  - reflexivity.
  - reflexivity.
  - constructor; [|constructor].
    exists Sample.reconstructed, Sample.ground_truth. reflexivity.
Defined.
